(** * VideoOverlayer: the coordination layer of [transcode_and_package.py]

    A shallow embedding of the script's probing, planning, transcoding,
    packaging and orchestration code, and the properties its specification
    states about them.

    The external tools (ffprobe, ffmpeg, mp4fragment, mp4dash), the file
    system and the completion order of the worker pool are an explicit
    [world]; every effect the script performs is recorded in a [trace].
    Python text is a Rocq [string], one character per code point below 256. *)

From Stdlib Require Import ZArith List String Ascii Bool Lia Permutation.
From Stdlib Require Import DecimalString.
From Stdlib Require Import PrimFloat FloatOps SpecFloat.

#[local] Set Warnings "-inexact-float".
Import ListNotations.

Open Scope list_scope.
Open Scope string_scope.
Open Scope Z_scope.

(** ** Python strings *)

Module PyStr.

Definition nl : ascii := "010"%char.
Definition squote : ascii := "'"%char.
Definition dquote : ascii := "034"%char.
Definition backslash : ascii := "\"%char.

Definition code (c : ascii) : Z := Z.of_nat (nat_of_ascii c).

(** [str.isspace] on the code points below 256. *)
Definition is_space (c : ascii) : bool :=
  let n := code c in
  ((9 <=? n) && (n <=? 13)) || ((28 <=? n) && (n <=? 32))
  || (n =? 133) || (n =? 160).

Fixpoint lstrip (s : string) : string :=
  match s with
  | EmptyString => EmptyString
  | String c r => if is_space c then lstrip r else s
  end.

Fixpoint rstrip (s : string) : string :=
  match s with
  | EmptyString => EmptyString
  | String c r =>
      match rstrip r with
      | EmptyString => if is_space c then EmptyString else String c EmptyString
      | r' => String c r'
      end
  end.

(** [s.strip()] *)
Definition strip (s : string) : string := rstrip (lstrip s).

(** [s.split(sep)] for a one-character separator: never the empty list. *)
Fixpoint split (sep : ascii) (s : string) : list string :=
  match s with
  | EmptyString => [EmptyString]
  | String c r =>
      if Ascii.eqb c sep then EmptyString :: split sep r
      else match split sep r with
           | [] => [String c EmptyString]
           | w :: ws => String c w :: ws
           end
  end.

(** [sep.join(parts)] *)
Definition join (sep : string) (parts : list string) : string :=
  String.concat sep parts.

(** [needle in hay] *)
Fixpoint contains (needle hay : string) : bool :=
  String.prefix needle hay
  || match hay with
     | EmptyString => false
     | String _ r => contains needle r
     end.

(** [s.rfind(c)] for a one-character [c]: the last index, or -1. *)
Fixpoint rfind (c : ascii) (s : string) : Z :=
  match s with
  | EmptyString => -1
  | String a r =>
      let k := rfind c r in
      if 0 <=? k then k + 1 else if Ascii.eqb a c then 0 else -1
  end.

Fixpoint drop (n : nat) (s : string) : string :=
  match n, s with
  | O, _ => s
  | S n', String _ r => drop n' r
  | S _, EmptyString => EmptyString
  end.

Fixpoint take (n : nat) (s : string) : string :=
  match n, s with
  | S n', String c r => String c (take n' r)
  | _, _ => EmptyString
  end.

(** [s[i:]] and [s[:i]] for [0 <= i]. *)
Definition slice_from (i : Z) (s : string) : string := drop (Z.to_nat i) s.
Definition slice_to (i : Z) (s : string) : string := take (Z.to_nat i) s.

Definition startswith (c : ascii) (s : string) : bool :=
  match s with
  | String a _ => Ascii.eqb a c
  | EmptyString => false
  end.

Fixpoint endswith (c : ascii) (s : string) : bool :=
  match s with
  | EmptyString => false
  | String a EmptyString => Ascii.eqb a c
  | String _ r => endswith c r
  end.

(** [str(n)] for an [int]. *)
Definition str_int (z : Z) : string := NilZero.string_of_int (Z.to_int z).

Definition str_bool (b : bool) : string := if b then "True" else "False".

Definition hex_digit (n : Z) : ascii :=
  ascii_of_nat (Z.to_nat (if n <? 10 then 48 + n else 87 + n)).

Definition printable (c : ascii) : bool :=
  let n := code c in
  ((32 <=? n) && (n <? 127)) || ((161 <=? n) && negb (n =? 173)).

Definition contains_char (c : ascii) (s : string) : bool := 0 <=? rfind c s.

Fixpoint repr_body (q : ascii) (s : string) : string :=
  match s with
  | EmptyString => EmptyString
  | String c r =>
      let n := code c in
      (if Ascii.eqb c q || Ascii.eqb c backslash
       then String backslash (String c EmptyString)
       else if n =? 9 then "\t"
       else if n =? 10 then "\n"
       else if n =? 13 then "\r"
       else if printable c then String c EmptyString
       else String backslash
              (String "x" (String (hex_digit (n / 16))
                                  (String (hex_digit (n mod 16)) EmptyString))))
      ++ repr_body q r
  end.

(** [repr(s)] of a [str]. *)
Definition repr (s : string) : string :=
  let q := if contains_char squote s && negb (contains_char dquote s)
           then dquote else squote in
  String q (repr_body q s ++ String q EmptyString).

(** [repr(l)] of a list of [str]. *)
Definition repr_list (l : list string) : string :=
  "[" ++ join ", " (map repr l) ++ "]".

End PyStr.

Import PyStr.

(** ** Exceptions and the Python built-ins the script calls *)

Inductive exn_class :=
| NameError | RuntimeError | ValueError | ZeroDivisionError
| KeyError | OverflowError | UnicodeDecodeError | OSError.

(** An exception: its class and the text [str(e)] gives. *)
Record exn := Exn { exn_kind : exn_class; exn_str : string }.

(** A pure computation that returns or raises. *)
Definition raising (A : Type) : Type := (exn + A)%type.

Module PyInt.

Definition digit_val (c : ascii) : option Z :=
  let n := code c in
  if (48 <=? n) && (n <=? 57) then Some (n - 48) else None.

(** Decimal digits, single underscores allowed between two digits. *)
Fixpoint digits (acc : Z) (after_digit : bool) (s : string) : option Z :=
  match s with
  | EmptyString => if after_digit then Some acc else None
  | String c r =>
      if Ascii.eqb c "_"
      then (if after_digit then digits acc false r else None)
      else match digit_val c with
           | Some d => digits (10 * acc + d) true r
           | None => None
           end
  end.

Definition literal (s : string) : option Z :=
  match s with
  | String "-" r => option_map Z.opp (digits 0 false r)
  | String "+" r => digits 0 false r
  | _ => digits 0 false s
  end.

(** [int(s)] for a [str], base 10. *)
Definition of_str (s : string) : raising Z :=
  match literal (strip s) with
  | Some z => inr z
  | None =>
      inl (Exn ValueError ("invalid literal for int() with base 10: " ++ repr s))
  end.

(** [a, b = map(int, parts)]: the map is lazy, so the conversions run
    one by one as the unpacking asks for a next value. *)
Definition unpack2 (parts : list string) : raising (Z * Z) :=
  match parts with
  | [] =>
      inl (Exn ValueError "not enough values to unpack (expected 2, got 0)")
  | [a] =>
      match of_str a with
      | inl e => inl e
      | inr _ =>
          inl (Exn ValueError "not enough values to unpack (expected 2, got 1)")
      end
  | [a; b] =>
      match of_str a with
      | inl e => inl e
      | inr x => match of_str b with
                 | inl e => inl e
                 | inr y => inr (x, y)
                 end
      end
  | a :: b :: c :: _ =>
      match of_str a with
      | inl e => inl e
      | inr _ =>
          match of_str b with
          | inl e => inl e
          | inr _ =>
              match of_str c with
              | inl e => inl e
              | inr _ =>
                  inl (Exn ValueError "too many values to unpack (expected 2)")
              end
          end
      end
  end.

End PyInt.

(** The binary64 arithmetic of the overlay geometry. *)
Module PyFloat64.

(** An [int] operand of a float product. *)
Definition of_int (z : Z) : raising float :=
  let f := SF2Prim (binary_normalize prec emax z 0 false) in
  if is_infinity f
  then inl (Exn OverflowError "int too large to convert to float")
  else inr f.

(** [int(x)] for a float: truncation towards zero. *)
Definition to_int (x : float) : raising Z :=
  match Prim2SF x with
  | S754_zero _ => inr 0
  | S754_finite s m e =>
      let mag := match e with
                 | Z0 => Zpos m
                 | Zpos p => Z.shiftl (Zpos m) (Zpos p)
                 | Zneg p => Z.shiftr (Zpos m) (Zpos p)
                 end in
      inr (if s then - mag else mag)
  | S754_infinity _ =>
      inl (Exn OverflowError "cannot convert float infinity to integer")
  | S754_nan => inl (Exn ValueError "cannot convert float NaN to integer")
  end.

(** [int(c * n)] and [int(n * c)] for a float constant [c], an int [n]. *)
Definition int_mul_l (c : float) (n : Z) : raising Z :=
  match of_int n with
  | inl e => inl e
  | inr f => to_int (c * f)%float
  end.

Definition int_mul_r (n : Z) (c : float) : raising Z :=
  match of_int n with
  | inl e => inl e
  | inr f => to_int (f * c)%float
  end.

End PyFloat64.

(** The float values of the probed duration and frame rate are only parsed,
    divided once and printed back: their type and these three built-ins are
    an interface. *)
Class PyFloat := {
  pyfloat : Type;
  (** [float(s)]: [ValueError] on text that is no float literal. *)
  float_of_str : string -> raising pyfloat;
  (** [n / d] on ints with [d <> 0]: [OverflowError] out of range. *)
  int_truediv : Z -> Z -> raising pyfloat;
  (** [str(x)] *)
  str_of_float : pyfloat -> string
}.

(** ** [os.path] (posixpath) *)

Module PosixPath.

Definition sep : ascii := "/"%char.
Definition extsep : ascii := "."%char.

Definition basename (p : string) : string :=
  let i := rfind sep p + 1 in
  slice_from i p.

Fixpoint only_dots (s : string) : bool :=
  match s with
  | EmptyString => true
  | String c r => Ascii.eqb c extsep && only_dots r
  end.

(** [os.path.splitext]: the extension starts at the last dot of the last
    component, leading dots of that component apart. *)
Definition splitext (p : string) : string * string :=
  let sepIndex := rfind sep p in
  let dotIndex := rfind extsep p in
  if sepIndex <? dotIndex then
    let filenameIndex := sepIndex + 1 in
    if only_dots (slice_to (dotIndex - filenameIndex) (slice_from filenameIndex p))
    then (p, EmptyString)
    else (slice_to dotIndex p, slice_from dotIndex p)
  else (p, EmptyString).

(** [os.path.join(a, b)] *)
Definition join (a b : string) : string :=
  if startswith sep b then b
  else if (a =? EmptyString)%string || endswith sep a then a ++ b
  else a ++ String sep b.

End PosixPath.

(** ** The overlay marker *)

Record OverlaySpec := {
  overlay_color : string;
  circle_radius : Z;
  overlay_position_x : Z;
  overlay_position_y : Z
}.

(** The marker of a [width] x [height] rendition, as the first lines of
    [transcode_and_overlay] compute it. *)
Definition overlay_spec (width height : Z) (hdr : bool) : raising OverlaySpec :=
  let color := if hdr then "green" else "white" in
  match (if hdr then PyFloat64.int_mul_l 0.07 height
         else PyFloat64.int_mul_l 0.05 height) with
  | inl e => inl e
  | inr radius =>
      let x := width - radius in
      match (if hdr then PyFloat64.int_mul_r height 0.07
             else inr (height - radius)) with
      | inl e => inl e
      | inr y =>
          inr {| overlay_color := color; circle_radius := radius;
                 overlay_position_x := x; overlay_position_y := y |}
      end
  end.

(** ** The world outside the script *)

(** [subprocess.run(args)] and [subprocess.run(line, shell=True)]. *)
Inductive command :=
| Argv (args : list string)
| Shell (line : string).

(** A captured stream, as its [decode()] sees it: the text, or the
    [UnicodeDecodeError] for bytes that are not valid UTF-8. *)
Inductive captured :=
| Text (text : string)
| Undecodable (e : exn).

(** What [subprocess.run] returns. *)
Record CompletedProcess := {
  returncode : Z;
  stdout : captured;
  stderr : captured
}.

Inductive event :=
| EvPrint (text : string)
| EvRun (cmd : command) (res : raising CompletedProcess)
| EvMakedirs (path : string) (res : option exn).

Definition trace := list event.

Record world := {
  (** [os.path.exists] *)
  path_exists : string -> bool;
  (** [os.makedirs(path, exist_ok=True)]: the error it raises, if any. *)
  makedirs : trace -> string -> option exn;
  (** [subprocess.run]: the call raises (the tool cannot be started) or
      returns a completed process; the answer may depend on what happened
      before. *)
  run_tool : trace -> command -> raising CompletedProcess;
  (** The order in which [n] submitted futures complete, as indices. *)
  completion_order : nat -> list nat;
  (** The text of [time.time() - start_time]. *)
  elapsed : string
}.

(** ** Programs: a trace-passing monad with exceptions and [sys.exit] *)

Inductive outcome (A : Type) :=
| Ret (a : A)
| Raise (e : exn)
| SysExit (status : Z).
Arguments Ret {A} a.
Arguments Raise {A} e.
Arguments SysExit {A} status.

Definition prog (A : Type) : Type := trace -> outcome A * trace.

Definition ret {A} (a : A) : prog A := fun tr => (Ret a, tr).

Definition raise {A} (e : exn) : prog A := fun tr => (Raise e, tr).

Definition sys_exit {A} (status : Z) : prog A := fun tr => (SysExit status, tr).

Definition bind {A B} (m : prog A) (k : A -> prog B) : prog B :=
  fun tr =>
    match m tr with
    | (Ret a, tr') => k a tr'
    | (Raise e, tr') => (Raise e, tr')
    | (SysExit c, tr') => (SysExit c, tr')
    end.

Notation "x <- m ;; k" := (bind m (fun x => k))
  (at level 61, m at next level, right associativity).
Notation "m ;;; k" := (bind m (fun _ => k))
  (at level 61, right associativity).

(** [try: body  except Exception as e: handler(e)]: [SystemExit] is no
    [Exception] and passes through. *)
Definition try_except {A} (body : prog A) (handler : exn -> prog A) : prog A :=
  fun tr =>
    match body tr with
    | (Raise e, tr') => handler e tr'
    | r => r
    end.

Definition lift {A} (r : raising A) : prog A :=
  match r with
  | inl e => raise e
  | inr a => ret a
  end.

Definition emit (ev : event) : prog unit :=
  fun tr => (Ret tt, (tr ++ [ev])%list).

Definition print (text : string) : prog unit := emit (EvPrint text).

(** [bytes.decode()] of a captured stream. *)
Definition decode (stream : captured) : prog string :=
  match stream with
  | Text text => ret text
  | Undecodable e => raise e
  end.

Section Script.

Context {F : PyFloat}.
Variable w : world.

Definition subprocess_run (cmd : command) : prog CompletedProcess :=
  fun tr =>
    let res := run_tool w tr cmd in
    lift res (tr ++ [EvRun cmd res])%list.

Definition os_makedirs (path : string) : prog unit :=
  fun tr =>
    let res := makedirs w tr path in
    match res with
    | Some e => (Raise e, (tr ++ [EvMakedirs path res])%list)
    | None => (Ret tt, (tr ++ [EvMakedirs path res])%list)
    end.

(** *** class VideoProcessor *)

(** The class attribute [resolutions], in insertion order. *)
Definition resolutions : list (string * string) :=
  [("360p", "640x360"); ("480p", "854x480");
   ("720p", "1280x720"); ("1080p", "1920x1080")].

Fixpoint dict_get (d : list (string * string)) (key : string) : raising string :=
  match d with
  | [] => inl (Exn KeyError (repr key))
  | (k, v) :: rest => if (k =? key)%string then inr v else dict_get rest key
  end.

Record VideoProcessor := {
  video_path : string;
  is_hdr : bool;
  duration : option pyfloat;
  frame_rate : option pyfloat
}.

(** The name [video_path] of the module's global scope: bound by the
    [__main__] block, unbound when the module is imported. *)
Definition globals := option string.

Definition load_global (g : globals) : prog string :=
  match g with
  | Some v => ret v
  | None => raise (Exn NameError "name 'video_path' is not defined")
  end.

Definition hdr_formats : list string :=
  ["bt2020"; "smpte2084"; "arib-std-b67"; "bt2020nc"].

Definition hdr_probe_cmd (path : string) : command :=
  Argv ["ffprobe"; "-v"; "error"; "-select_streams"; "v:0";
        "-show_entries"; "stream=color_space,color_transfer,color_primaries";
        "-of"; "default=noprint_wrappers=1:nokey=1"; path].

Definition line_is_hdr (line : string) : bool :=
  existsb (fun fmt => contains fmt line) hdr_formats.

Definition check_hdr (g : globals) : prog bool :=
  try_except
    (path <- load_global g ;;
     result <- subprocess_run (hdr_probe_cmd path) ;;
     text <- decode (stdout result) ;;
     let output := split nl (strip text) in
     ret (existsb line_is_hdr output))
    (fun e =>
       print ("Error checking HDR with ffprobe: " ++ exn_str e) ;;;
       ret false).

Definition duration_probe_cmd (path : string) : command :=
  Argv ["ffprobe"; "-v"; "error"; "-select_streams"; "v:0";
        "-show_entries"; "format=duration"; "-of"; "default=nw=1:nk=1"; path].

Definition get_duration (self_video_path : string) : prog (option pyfloat) :=
  try_except
    (result <- subprocess_run (duration_probe_cmd self_video_path) ;;
     text <- decode (stdout result) ;;
     duration <- lift (float_of_str (strip text)) ;;
     ret (Some duration))
    (fun e =>
       print ("Error getting duration: " ++ exn_str e) ;;;
       ret None).

Definition frame_rate_probe_cmd (path : string) : command :=
  Argv ["ffprobe"; "-v"; "error"; "-select_streams"; "v:0";
        "-show_entries"; "stream=r_frame_rate"; "-of"; "default=nw=1:nk=1"; path].

(** [num / denom] on ints. *)
Definition truediv (num denom : Z) : raising pyfloat :=
  if denom =? 0 then inl (Exn ZeroDivisionError "division by zero")
  else int_truediv num denom.

Definition get_frame_rate (self_video_path : string) : prog (option pyfloat) :=
  try_except
    (result <- subprocess_run (frame_rate_probe_cmd self_video_path) ;;
     text <- decode (stdout result) ;;
     let r_frame_rate := strip text in
     nd <- lift (PyInt.unpack2 (split "/" r_frame_rate)) ;;
     let '(num, denom) := nd in
     frame_rate <- lift (truediv num denom) ;;
     ret (Some frame_rate))
    (fun e =>
       print ("Error getting frame rate: " ++ exn_str e) ;;;
       ret None).

(** [VideoProcessor.__init__] *)
Definition VideoProcessor_init (g : globals) (path : string) : prog VideoProcessor :=
  hdr <- check_hdr g ;;
  d <- get_duration path ;;
  fr <- get_frame_rate path ;;
  ret {| video_path := path; is_hdr := hdr; duration := d; frame_rate := fr |}.

(** [str(x)] of an attribute that is a float or [None]. *)
Definition str_opt_float (x : option pyfloat) : string :=
  match x with
  | Some f => str_of_float f
  | None => "None"
  end.

Definition draw_circle (color : string) (x y radius : Z) : string :=
  "drawtext=text='o':x=" ++ str_int x ++ ":y=" ++ str_int y
  ++ ":fontsize=" ++ str_int (radius * 2)
  ++ ":fontcolor=" ++ color ++ ":alpha=0.5".

(** *** The transcode worker *)

Definition rendition_filename (path resolution : string) (hdr : bool) : string :=
  fst (PosixPath.splitext (PosixPath.basename path))
  ++ "_" ++ resolution ++ (if hdr then "_HDR" else "_SDR") ++ ".mp4".

Definition rendition_path (path resolution : string) (hdr : bool) : string :=
  PosixPath.join "output" (rendition_filename path resolution hdr).

Definition ffmpeg_cmd (self : VideoProcessor) (width height : Z)
    (circle_filter output_path : string) : command :=
  Argv ["ffmpeg"; "-i"; video_path self;
        "-vf"; "scale=" ++ str_int width ++ ":" ++ str_int height ++ "," ++ circle_filter;
        "-c:v"; "libx265"; "-crf"; "28"; "-preset"; "medium";
        "-r"; str_opt_float (frame_rate self);
        "-c:a"; "aac"; "-b:a"; "128k";
        "-t"; str_opt_float (duration self);
        output_path].

Definition transcode_and_overlay (self : VideoProcessor) (resolution : string)
    (hdr : bool) : prog (option string) :=
  try_except
    (dims <- lift (dict_get resolutions resolution) ;;
     wh <- lift (PyInt.unpack2 (split "x" dims)) ;;
     let '(width, height) := wh in
     o <- lift (overlay_spec width height hdr) ;;
     let circle_filter :=
       draw_circle (overlay_color o) (overlay_position_x o)
                   (overlay_position_y o) (circle_radius o) in
     let output_path := rendition_path (video_path self) resolution hdr in
     result <- subprocess_run (ffmpeg_cmd self width height circle_filter output_path) ;;
     (if negb (returncode result =? 0)
      then (msg <- decode (stderr result) ;;
            raise (Exn RuntimeError ("Error during transcoding: " ++ msg)))
      else ret tt) ;;;
     ret (Some output_path))
    (fun e =>
       print ("Error in transcode_and_overlay: " ++ exn_str e) ;;;
       ret None).

(** *** class Bento4Packager *)

Definition output_dir : string := "output".

Definition fragmented_path_of (input_path : string) : string :=
  PosixPath.join output_dir
    (fst (PosixPath.splitext (PosixPath.basename input_path)) ++ "-fragmented.mp4").

Definition mp4fragment_cmd (input_path fragmented_path : string) : command :=
  Shell ("mp4fragment --fragment-duration 7000 " ++ input_path ++ " " ++ fragmented_path).

Definition mp4dash_cmd (fragmented_paths : list string) : command :=
  Shell ("mp4dash -o " ++ output_dir ++ "/output_dash " ++ join " " fragmented_paths).

(** The [for input_path in input_paths] loop of [package]. *)
Fixpoint fragment_all (input_paths fragmented_paths : list string)
    : prog (list string) :=
  match input_paths with
  | [] => ret fragmented_paths
  | input_path :: rest =>
      let fragmented_path := fragmented_path_of input_path in
      result <- subprocess_run (mp4fragment_cmd input_path fragmented_path) ;;
      (if negb (returncode result =? 0)
       then (msg <- decode (stderr result) ;;
             raise (Exn RuntimeError ("Error during mp4fragment: " ++ msg)))
       else ret tt) ;;;
      fragment_all rest (fragmented_paths ++ [fragmented_path])%list
  end.

Definition package (input_paths : list string) : prog unit :=
  try_except
    (fragmented_paths <- fragment_all input_paths [] ;;
     print ("Fragmented files created: " ++ repr_list fragmented_paths) ;;;
     result <- subprocess_run (mp4dash_cmd fragmented_paths) ;;
     if negb (returncode result =? 0)
     then (msg <- decode (stderr result) ;;
           raise (Exn RuntimeError ("Error during mp4dash: " ++ msg)))
     else ret tt)
    (fun e => print ("Error in Bento4Packager: " ++ exn_str e)).

(** *** The planner and the worker pool *)

(** A rendition job: the arguments of one [executor.submit]. *)
Definition job := (string * bool)%type.

(** The submission loop of [main] over the keys of [resolutions]. *)
Fixpoint submit_jobs (keys : list string) (source_is_hdr : bool) : list job :=
  match keys with
  | [] => []
  | res :: rest =>
      ((res, source_is_hdr)
         :: (if source_is_hdr then [(res, false)] else [])
         ++ submit_jobs rest source_is_hdr)%list
  end.

Definition transcoding_jobs (source_is_hdr : bool) : list job :=
  submit_jobs (map fst resolutions) source_is_hdr.

(** [as_completed(futures)]: the submitted futures in completion order. *)
Fixpoint pick {A} (l : list A) (order : list nat) : list A :=
  match order with
  | [] => []
  | i :: rest =>
      match nth_error l i with
      | Some a => a :: pick l rest
      | None => pick l rest
      end
  end.

Definition as_completed {A} (futures : list A) : list A :=
  pick futures (completion_order w (List.length futures)).

(** A finished future holds what the call returned or raised. *)
Definition future := outcome (option string).

Definition run_future (p : prog (option string)) : prog future :=
  fun tr => let '(o, tr') := p tr in (Ret o, tr').

Definition future_result (f : future) : prog (option string) :=
  fun tr => (f, tr).

(** The [for future in as_completed(...)] loop of [main]: each job runs
    to its end in a worker, then its result is collected; [if result:]
    drops [None] and the empty string. *)
Fixpoint collect (self : VideoProcessor) (completed : list job)
    (transcoded_files : list string) : prog (list string) :=
  match completed with
  | [] => ret transcoded_files
  | (res, hdr) :: rest =>
      f <- run_future (transcode_and_overlay self res hdr) ;;
      files <- try_except
                 (result <- future_result f ;;
                  ret (match result with
                       | None => transcoded_files
                       | Some path =>
                           if (path =? EmptyString)%string
                           then transcoded_files
                           else (transcoded_files ++ [path])%list
                       end))
                 (fun exc =>
                    print ("Error during transcoding: " ++ exn_str exc) ;;;
                    ret transcoded_files) ;;
      collect self rest files
  end.

(** *** The orchestrator *)

Definition main (g : globals) (path : string) : prog unit :=
  if negb (path_exists w path) then
    print ("File not found: " ++ path) ;;;
    sys_exit 1
  else
    os_makedirs "output" ;;;
    processor <- VideoProcessor_init g path ;;
    print ("Is HDR: " ++ str_bool (is_hdr processor)) ;;;
    transcoded_files <-
      collect processor (as_completed (transcoding_jobs (is_hdr processor))) [] ;;
    try_except
      (package transcoded_files)
      (fun exc => print ("Error during packaging: " ++ exn_str exc)).

(** The [if __name__ == "__main__"] block; [argv] is [sys.argv]. *)
Definition script (argv : list string) : prog unit :=
  if negb (Nat.eqb (List.length argv) 2) then
    print "Usage: python script.py <path_to_video_file>" ;;;
    sys_exit 1
  else
    let path := nth 1 argv EmptyString in
    main (Some path) path ;;;
    print ("duration: " ++ elapsed w).

(** The exit status of the interpreter: 0 when the script runs to its
    end, the argument of [sys.exit], 1 after an uncaught exception. *)
Definition exit_status {A} (o : outcome A) : Z :=
  match o with
  | Ret _ => 0
  | SysExit status => status
  | Raise _ => 1
  end.

End Script.

(** ** Vocabulary of the properties *)

(** The pixel size of a table entry, as [transcode_and_overlay] reads it. *)
Definition dimensions (dims : string) : raising (Z * Z) :=
  PyInt.unpack2 (split "x" dims).

(** The HDR flags of the jobs submitted for one resolution, in order. *)
Definition flags_for (res : string) (jobs : list (string * bool)) : list bool :=
  map snd (filter (fun j => (fst j =? res)%string) jobs).

(** [m] occurs in [s] as a substring. *)
Definition occurs (m s : string) : Prop := exists a b, s = a ++ m ++ b.

(** No character of [s] is white space. *)
Fixpoint no_space (s : string) : bool :=
  match s with
  | EmptyString => true
  | String c r => negb (is_space c) && no_space r
  end.

(** What goes wrong in the body of [check_hdr] once the probe was started. *)
Definition hdr_probe_error (res : raising CompletedProcess) : option exn :=
  match res with
  | inl e => Some e
  | inr cp =>
      match stdout cp with
      | Text _ => None
      | Undecodable e => Some e
      end
  end.

(** The lines [check_hdr] looks at. *)
Definition probe_lines (res : raising CompletedProcess) : list string :=
  match res with
  | inr cp =>
      match stdout cp with
      | Text text => split nl (strip text)
      | Undecodable _ => []
      end
  | inl _ => []
  end.

Definition error_report (prefix : string) (err : option exn) : trace :=
  match err with
  | Some e => [EvPrint (prefix ++ exn_str e)]
  | None => []
  end.

Definition is_run (ev : event) : bool :=
  match ev with
  | EvRun _ _ => true
  | _ => false
  end.

Definition is_makedirs (ev : event) : bool :=
  match ev with
  | EvMakedirs _ _ => true
  | _ => false
  end.


Section Vocabulary.

Context {F : PyFloat}.

(** The ways the duration probe fails: the tool cannot be run, its output is
    no text, or the text is no float literal. *)
Inductive duration_probe_failure : raising CompletedProcess -> exn -> Prop :=
| duration_tool_error e :
    duration_probe_failure (inl e) e
| duration_undecodable cp e :
    stdout cp = Undecodable e ->
    duration_probe_failure (inr cp) e
| duration_unparsable cp text e :
    stdout cp = Text text ->
    float_of_str (strip text) = inl e ->
    duration_probe_failure (inr cp) e.

(** The ways the frame-rate probe fails: as above, or the text is not two
    ints around one slash, or the denominator is zero, or the quotient is
    out of the floats' range. *)
Inductive frame_rate_probe_failure : raising CompletedProcess -> exn -> Prop :=
| frame_rate_tool_error e :
    frame_rate_probe_failure (inl e) e
| frame_rate_undecodable cp e :
    stdout cp = Undecodable e ->
    frame_rate_probe_failure (inr cp) e
| frame_rate_unparsable cp text e :
    stdout cp = Text text ->
    PyInt.unpack2 (split "/" (strip text)) = inl e ->
    frame_rate_probe_failure (inr cp) e
| frame_rate_zero_denominator cp text num :
    stdout cp = Text text ->
    PyInt.unpack2 (split "/" (strip text)) = inr (num, 0) ->
    frame_rate_probe_failure (inr cp) (Exn ZeroDivisionError "division by zero")
| frame_rate_out_of_range cp text num denom e :
    stdout cp = Text text ->
    PyInt.unpack2 (split "/" (strip text)) = inr (num, denom) ->
    denom <> 0 ->
    int_truediv num denom = inl e ->
    frame_rate_probe_failure (inr cp) e.

(** The command and the output path of a job whose resolution is in the
    table: what [transcode_and_overlay] builds before it runs the tool. *)
Definition job_plan (self : VideoProcessor) (resolution : string) (hdr : bool)
    : raising (command * string) :=
  match dict_get resolutions resolution with
  | inl e => inl e
  | inr dims =>
      match dimensions dims with
      | inl e => inl e
      | inr (width, height) =>
          match overlay_spec width height hdr with
          | inl e => inl e
          | inr o =>
              let out := rendition_path (video_path self) resolution hdr in
              inr (ffmpeg_cmd self width height
                     (draw_circle (overlay_color o) (overlay_position_x o)
                                  (overlay_position_y o) (circle_radius o))
                     out,
                   out)
          end
      end
  end.

End Vocabulary.

(** The error a tool call ends in, [what] naming the tool in the message
    of a nonzero exit. *)
Definition tool_error (what : string) (res : raising CompletedProcess) : option exn :=
  match res with
  | inl e => Some e
  | inr cp =>
      if returncode cp =? 0 then None
      else match stderr cp with
           | Text msg => Some (Exn RuntimeError (what ++ msg))
           | Undecodable e => Some e
           end
  end.

(** A fragmentation call that returned with exit code 0. *)
Definition clean_fragment (ev : event) : Prop :=
  exists input cp,
    ev = EvRun (mp4fragment_cmd input (fragmented_path_of input)) (inr cp)
    /\ returncode cp = 0.

(** A call of the fragmentation tool that returned a nonzero exit code. *)
Definition failed_fragment (ev : event) : bool :=
  match ev with
  | EvRun (Shell line) (inr cp) =>
      String.prefix "mp4fragment " line && negb (returncode cp =? 0)
  | _ => false
  end.

(** A call of the manifest-generation tool. *)
Definition is_mp4dash (ev : event) : bool :=
  match ev with
  | EvRun (Shell line) _ => String.prefix "mp4dash " line
  | _ => false
  end.

(** The tool answers a command with exit code 0, whatever happened before. *)
Definition tool_succeeds (w : world) (cmd : command) : Prop :=
  forall tr, exists cp, run_tool w tr cmd = inr cp /\ returncode cp = 0.

(** The tool cannot be run or exits nonzero, whatever happened before. *)
Definition tool_fails (w : world) (cmd : command) : Prop :=
  forall tr,
    match run_tool w tr cmd with
    | inl _ => True
    | inr cp => returncode cp <> 0
    end.

(** The input's basename without its extension. *)
Definition stem (path : string) : string :=
  fst (PosixPath.splitext (PosixPath.basename path)).

Definition hdr_tag (hdr : bool) : string := if hdr then "HDR" else "SDR".

(** The name of a rendition, extension apart. *)
Definition rendition_name (path resolution : string) (hdr : bool) : string :=
  stem path ++ "_" ++ resolution ++ "_" ++ hdr_tag hdr.

Section BatchVocabulary.

Context {F : PyFloat}.

Definition job_eqb (j1 j2 : job) : bool :=
  (fst j1 =? fst j2)%string && Bool.eqb (snd j1) (snd j2).

(** The file a job writes. *)
Definition job_output (self : VideoProcessor) (j : job) : string :=
  rendition_path (video_path self) (fst j) (snd j).

(** The job's transcoder call comes back with exit code 0. *)
Definition job_succeeds (w : world) (self : VideoProcessor) (j : job) : Prop :=
  exists cmd out,
    job_plan self (fst j) (snd j) = inr (cmd, out) /\ tool_succeeds w cmd.

(** The job's transcoder call raises or exits nonzero. *)
Definition job_fails (w : world) (self : VideoProcessor) (j : job) : Prop :=
  exists cmd out,
    job_plan self (fst j) (snd j) = inr (cmd, out) /\ tool_fails w cmd.

(** The job's transcoder call is among the events. *)
Definition job_ran (self : VideoProcessor) (j : job) (evs : trace) : Prop :=
  exists cmd out res,
    job_plan self (fst j) (snd j) = inr (cmd, out) /\ In (EvRun cmd res) evs.

End BatchVocabulary.

(** ** Sample worlds *)

(** A stand-in for the float built-ins, enough to run the script on sample
    worlds: integral literals, integral quotients. *)
Definition sample_floats : PyFloat := {|
  pyfloat := Z;
  float_of_str := fun s =>
    match PyInt.literal s with
    | Some z => inr z
    | None => inl (Exn ValueError ("could not convert string to float: " ++ repr s))
    end;
  int_truediv := fun n d => inr (n / d);
  str_of_float := fun z => str_int z ++ ".0"
|}.

Definition answer (status : Z) (out err : string) : raising CompletedProcess :=
  inr {| returncode := status; stdout := Text out; stderr := Text err |}.

Definition has_arg (a : string) (cmd : command) : bool :=
  match cmd with
  | Argv args => existsb (String.eqb a) args
  | Shell _ => false
  end.

Definition shell_mentions (a : string) (cmd : command) : bool :=
  match cmd with
  | Argv _ => false
  | Shell line => contains a line
  end.

(** A world where every path exists or none does ([present]) and the tools
    answer by the command alone: the probes print [color], [seconds] and [rate]; the transcode
    writing [bad_rendition] and the fragmentation reading [bad_fragment]
    exit with status 1, every other call with 0; futures complete in the
    reverse of their submission order. *)
Definition sample_world (present : bool)
    (color seconds rate bad_rendition bad_fragment : string)
    (mkdir_error : option exn) : world := {|
  path_exists := fun _ => present;
  makedirs := fun _ _ => mkdir_error;
  run_tool := fun _ cmd =>
    if has_arg "format=duration" cmd then answer 0 (seconds ++ String nl EmptyString) EmptyString
    else if has_arg "stream=r_frame_rate" cmd then answer 0 (rate ++ String nl EmptyString) EmptyString
    else if has_arg "ffprobe" cmd then answer 0 (color ++ String nl EmptyString) EmptyString
    else if has_arg bad_rendition cmd then answer 1 EmptyString "Conversion failed!"
    else if shell_mentions (" " ++ bad_fragment ++ " ") cmd
         then answer 1 EmptyString "ERROR: cannot open input file"
    else answer 0 EmptyString EmptyString;
  completion_order := fun n => rev (seq 0 n);
  elapsed := "12.5"
|}.

(** A ten-second SDR clip at 30 fps whose 720p transcode fails. *)
Definition world_one_failure : world :=
  sample_world true "bt709" "10" "30/1" "output/clip_720p_SDR.mp4" "-" None.

(** The same clip, all transcodes fine, the fragmentation of one file fails. *)
Definition world_bad_fragment : world :=
  sample_world true "bt709" "10" "30/1" "-" "output/clip_480p_SDR.mp4" None.

(** A source whose duration and frame rate ffprobe cannot tell. *)
Definition world_unknown : world :=
  sample_world true "bt709" "N/A" "0/0" "-" "-" None.

(** An HDR10 source: ffprobe prints the three colour tags, one per line. *)
Definition world_hdr : world :=
  sample_world true
    ("bt2020nc" ++ String nl ("smpte2084" ++ String nl "bt2020"))
    "10" "30/1" "-" "-" None.

(** The input file is not there. *)
Definition world_missing : world :=
  sample_world false "bt709" "10" "30/1" "-" "-" None.

(** The working directory holds a regular file named [output]. *)
Definition world_blocked : world :=
  sample_world true "bt709" "10" "30/1" "-" "-"
    (Some (Exn OSError "[Errno 17] File exists: 'output'")).

(** Every tool answers with exit code 0. *)
Definition world_fine : world :=
  sample_world true "bt709" "10" "30/1" "-" "-" None.

(** Every transcode exits with status 1. *)
Definition world_no_rendition : world :=
  sample_world true "bt709" "10" "30/1" "ffmpeg" "-" None.

(** ** Vocabulary of the further properties *)

(** The commands of the tool calls among some events, in order. *)
Fixpoint run_commands (evs : trace) : list command :=
  match evs with
  | [] => []
  | EvRun cmd _ :: rest => cmd :: run_commands rest
  | _ :: rest => run_commands rest
  end.

(** The fragmentation command the packager builds for an input path. *)
Definition fragment_cmd_of (input_path : string) : command :=
  mp4fragment_cmd input_path (fragmented_path_of input_path).

(** The transcoder call of a job: the one command built for a resolution of
    the table, none for another label. *)
Definition job_commands {F : PyFloat} (self : VideoProcessor) (j : job) : list command :=
  match job_plan self (fst j) (snd j) with
  | inr (cmd, _) => [cmd]
  | inl _ => []
  end.

(** The markers of [hdr_formats] without [bt2020nc]. *)
Definition hdr_formats_short : list string :=
  ["bt2020"; "smpte2084"; "arib-std-b67"].

(** * Properties *)

(** ** Strings and paths *)

Section StringFacts.

Lemma append_nil_r (s : string) : s ++ EmptyString = s.
Proof. induction s as [ | c r IH]; simpl; [ | rewrite IH]; reflexivity. Qed.

Lemma append_assoc (a b c : string) : (a ++ b) ++ c = a ++ b ++ c.
Proof. induction a as [ | x r IH]; simpl; [ | rewrite IH]; reflexivity. Qed.

Lemma append_inv_head (a b c : string) : a ++ b = a ++ c -> b = c.
Proof.
  induction a as [ | x r IH]; simpl; intros H; [assumption | ].
  injection H as H. auto.
Qed.

Lemma rfind_lower (c : ascii) (s : string) : -1 <= rfind c s.
Proof.
  induction s as [ | a r IH]; simpl; [lia | ].
  destruct (0 <=? rfind c r) eqn:E; [apply Z.leb_le in E; lia | ].
  destruct (Ascii.eqb a c); lia.
Qed.

Lemma rfind_absent_cons (c a : ascii) (r : string) :
  rfind c (String a r) = -1 <-> (Ascii.eqb a c = false /\ rfind c r = -1).
Proof.
  simpl. pose proof (rfind_lower c r) as L.
  destruct (0 <=? rfind c r) eqn:E.
  - apply Z.leb_le in E. split; [lia | intros [_ H]; lia].
  - apply Z.leb_gt in E. destruct (Ascii.eqb a c); split.
    + intros H. discriminate.
    + intros [H _]. discriminate.
    + intros _. split; [reflexivity | lia].
    + reflexivity.
Qed.

Lemma rfind_app (c : ascii) (a b : string) :
  rfind c (a ++ b)
  = if 0 <=? rfind c b then Z.of_nat (String.length a) + rfind c b
    else rfind c a.
Proof.
  induction a as [ | x r IH].
  - simpl. destruct (0 <=? rfind c b) eqn:E; [reflexivity | ].
    apply Z.leb_gt in E. pose proof (rfind_lower c b). lia.
  - change (String x r ++ b) with (String x (r ++ b)).
    cbn [rfind String.length]. rewrite IH.
    destruct (0 <=? rfind c b) eqn:E.
    + apply Z.leb_le in E.
      replace (0 <=? Z.of_nat (String.length r) + rfind c b) with true
        by (symmetry; apply Z.leb_le; lia).
      lia.
    + reflexivity.
Qed.

Lemma rfind_absent_app (c : ascii) (a b : string) :
  rfind c a = -1 -> rfind c b = -1 -> rfind c (a ++ b) = -1.
Proof. intros Ha Hb. rewrite rfind_app, Hb. simpl. assumption. Qed.

Lemma rfind_absent_take (c : ascii) (s : string) :
  rfind c s = -1 -> forall n, rfind c (take n s) = -1.
Proof.
  induction s as [ | a r IH]; intros H n.
  - destruct n; reflexivity.
  - apply rfind_absent_cons in H. destruct H as [Ha Hr].
    destruct n as [ | n]; [reflexivity | ].
    cbn [take]. apply rfind_absent_cons. auto.
Qed.

Lemma rfind_absent_after_last (c : ascii) (s : string) :
  rfind c (drop (Z.to_nat (rfind c s + 1)) s) = -1.
Proof.
  induction s as [ | a r IH]; [reflexivity | ].
  pose proof (rfind_lower c r) as L.
  cbn [rfind]. destruct (0 <=? rfind c r) eqn:E.
  - apply Z.leb_le in E.
    replace (Z.to_nat (rfind c r + 1 + 1)) with (S (Z.to_nat (rfind c r + 1))) by lia.
    exact IH.
  - apply Z.leb_gt in E. assert (Hr : rfind c r = -1) by lia.
    destruct (Ascii.eqb a c) eqn:Ea; simpl.
    + assumption.
    + apply rfind_absent_cons. auto.
Qed.

Lemma take_app_length (a b : string) : take (String.length a) (a ++ b) = a.
Proof. induction a as [ | x r IH]; simpl; [destruct b | rewrite IH]; reflexivity. Qed.

Lemma drop_app_length (a b : string) : drop (String.length a) (a ++ b) = b.
Proof. induction a as [ | x r IH]; simpl; auto. Qed.

Lemma only_dots_app_other (a : string) (c : ascii) (b : string) :
  Ascii.eqb c PosixPath.extsep = false ->
  PosixPath.only_dots (a ++ String c b) = false.
Proof.
  intros Hc. induction a as [ | x r IH]; simpl.
  - rewrite Hc. reflexivity.
  - rewrite IH. apply andb_false_r.
Qed.

Lemma startswith_absent (c : ascii) (s : string) :
  rfind c s = -1 -> startswith c s = false.
Proof.
  destruct s as [ | a r]; [reflexivity | ].
  intros H. apply rfind_absent_cons in H. simpl. tauto.
Qed.

Lemma startswith_app (c : ascii) (a b : string) :
  startswith c a = false -> startswith c b = false -> startswith c (a ++ b) = false.
Proof. destruct a; simpl; auto. Qed.

(** The last component of a path holds no separator. *)
Lemma basename_no_sep (p : string) :
  rfind PosixPath.sep (PosixPath.basename p) = -1.
Proof. apply rfind_absent_after_last. Qed.

Lemma splitext_root_no_sep (p : string) :
  rfind PosixPath.sep p = -1 ->
  rfind PosixPath.sep (fst (PosixPath.splitext p)) = -1.
Proof.
  intros H. unfold PosixPath.splitext.
  destruct (rfind PosixPath.sep p <? rfind PosixPath.extsep p); [ | assumption].
  destruct (PosixPath.only_dots _); [assumption | ].
  apply rfind_absent_take. assumption.
Qed.

(** A name without separator whose root holds something else than dots
    splits at its last dot. *)
Lemma splitext_root_ext (root ext : string) (c : ascii) (a b : string) :
  root = a ++ String c b ->
  Ascii.eqb c PosixPath.extsep = false ->
  rfind PosixPath.sep root = -1 ->
  rfind PosixPath.sep ext = -1 ->
  rfind PosixPath.extsep ext = 0 ->
  PosixPath.splitext (root ++ ext) = (root, ext).
Proof.
  intros Hroot Hc Hsep Hsep' Hdot. unfold PosixPath.splitext.
  rewrite (rfind_absent_app _ _ _ Hsep Hsep').
  rewrite rfind_app, Hdot. cbn [Z.leb Z.compare].
  replace (-1 <? Z.of_nat (String.length root) + 0) with true
    by (symmetry; apply Z.ltb_lt; lia).
  unfold slice_to, slice_from.
  replace (Z.to_nat (-1 + 1)) with 0%nat by reflexivity.
  replace (Z.to_nat (Z.of_nat (String.length root) + 0 - (-1 + 1)))
    with (String.length root) by lia.
  replace (Z.to_nat (Z.of_nat (String.length root) + 0))
    with (String.length root) by lia.
  cbn [drop]. rewrite take_app_length, drop_app_length.
  rewrite Hroot at 1. rewrite (only_dots_app_other _ _ _ Hc). reflexivity.
Qed.

End StringFacts.

(** ** Substrings, lines and stripping *)

Section Occurrences.

Lemma occurs_refl (s : string) : occurs s s.
Proof. exists EmptyString, EmptyString. rewrite append_nil_r. reflexivity. Qed.

Lemma occurs_cons (m s : string) (c : ascii) : occurs m s -> occurs m (String c s).
Proof. intros (a & b & ->). exists (String c a), b. reflexivity. Qed.

Lemma occurs_trans (m s t : string) : occurs m s -> occurs s t -> occurs m t.
Proof.
  intros (a & b & ->) (a' & b' & ->).
  exists (a' ++ a), (b ++ b'). repeat rewrite append_assoc. reflexivity.
Qed.

Lemma occurs_nonempty (m s : string) :
  m <> EmptyString -> occurs m s -> s <> EmptyString.
Proof.
  intros Hm (a & b & ->) E. destruct a; [ | discriminate E].
  destruct m; [contradiction | discriminate E].
Qed.

Lemma prefix_iff (m s : string) :
  String.prefix m s = true <-> exists b, s = m ++ b.
Proof.
  revert s. induction m as [ | x m IH]; intros s.
  - destruct s; simpl; split; eauto.
  - destruct s as [ | y s]; simpl.
    + split; [discriminate | intros (b & E); discriminate E].
    + destruct (ascii_dec x y) as [-> | Hneq].
      * rewrite IH. split; intros (b & E); exists b.
        -- rewrite E. reflexivity.
        -- injection E. auto.
      * split; [discriminate | ].
        intros (b & E). injection E as E1 _. symmetry in E1. contradiction.
Qed.

(** [needle in hay] is substring occurrence. *)
Lemma contains_iff (m s : string) : contains m s = true <-> occurs m s.
Proof.
  split.
  - induction s as [ | c r IH]; cbn [contains]; rewrite orb_true_iff; intros [H | H].
    + apply prefix_iff in H. destruct H as (b & E). exists EmptyString, b. exact E.
    + discriminate H.
    + apply prefix_iff in H. destruct H as (b & E). exists EmptyString, b. exact E.
    + apply occurs_cons, IH, H.
  - intros (a & b & ->). induction a as [ | c a IH].
    + assert (H : String.prefix m (m ++ b) = true) by (apply prefix_iff; eauto).
      change (EmptyString ++ m ++ b) with (m ++ b).
      destruct (m ++ b); cbn [contains]; rewrite H; reflexivity.
    + change (String c a ++ m ++ b) with (String c (a ++ m ++ b)).
      cbn [contains]. rewrite IH. apply orb_true_r.
Qed.

Lemma split_nonempty (sep : ascii) (s : string) : split sep s <> [].
Proof.
  destruct s as [ | c r]; simpl; [discriminate | ].
  destruct (Ascii.eqb c sep); [discriminate | ].
  destruct (split sep r); discriminate.
Qed.

Lemma split_first_prefix (sep : ascii) (s : string) :
  forall w ws, split sep s = w :: ws -> exists b, s = w ++ b.
Proof.
  induction s as [ | c r IH]; intros w ws; simpl.
  - intros E. injection E as <- _. exists EmptyString. reflexivity.
  - destruct (Ascii.eqb c sep).
    + intros E. injection E as <- _. exists (String c r). reflexivity.
    + destruct (split sep r) as [ | w' ws'] eqn:E'.
      * intros E. injection E as <- _. exfalso. exact (split_nonempty sep r E').
      * intros E. injection E as <- _.
        destruct (IH w' ws' eq_refl) as (b & ->). exists b. reflexivity.
Qed.

(** Every line of a text occurs in the text. *)
Lemma split_line_occurs (sep : ascii) (s line : string) :
  In line (split sep s) -> occurs line s.
Proof.
  revert line. induction s as [ | c r IH]; intros line; simpl.
  - intros [<- | []]. apply occurs_refl.
  - destruct (Ascii.eqb c sep).
    + intros [<- | H].
      * exists EmptyString, (String c r). reflexivity.
      * apply occurs_cons, IH, H.
    + destruct (split sep r) as [ | w ws] eqn:E.
      * exfalso. exact (split_nonempty sep r E).
      * intros [<- | H].
        -- destruct (split_first_prefix sep r w ws E) as (b & ->).
           exists EmptyString, b. reflexivity.
        -- apply occurs_cons, IH. right. exact H.
Qed.

Lemma split_prefix_line (sep : ascii) (m b : string) :
  rfind sep m = -1 ->
  exists w ws, split sep (m ++ b) = (m ++ w) :: ws.
Proof.
  induction m as [ | x m IH]; intros H.
  - simpl. destruct (split sep b) as [ | w ws] eqn:E.
    + exfalso. exact (split_nonempty sep b E).
    + exists w, ws. reflexivity.
  - apply rfind_absent_cons in H. destruct H as [Hx Hm].
    destruct (IH Hm) as (w & ws & E).
    change (String x m ++ b) with (String x (m ++ b)).
    cbn [split]. rewrite Hx, E. exists w, ws. reflexivity.
Qed.

(** A string without separator that occurs in a text occurs in one of its
    lines. *)
Lemma occurs_in_a_line (sep : ascii) (m s : string) :
  rfind sep m = -1 ->
  occurs m s -> exists line, In line (split sep s) /\ occurs m line.
Proof.
  intros Hm (a & b & ->). induction a as [ | c a IH].
  - destruct (split_prefix_line sep m b Hm) as (w & ws & E).
    exists (m ++ w). simpl. rewrite E. split; [left; reflexivity | ].
    exists EmptyString, w. reflexivity.
  - destruct IH as (line & Hin & Hocc).
    change (String c a ++ m ++ b) with (String c (a ++ m ++ b)).
    cbn [split]. destruct (Ascii.eqb c sep).
    + exists line. split; [right; assumption | assumption].
    + destruct (split sep (a ++ m ++ b)) as [ | w ws] eqn:E; [contradiction | ].
      destruct Hin as [<- | Hin].
      * exists (String c w). split; [left; reflexivity | apply occurs_cons, Hocc].
      * exists line. split; [right; assumption | assumption].
Qed.

Lemma lstrip_occurs (t : string) : occurs (lstrip t) t.
Proof.
  induction t as [ | c r IH]; simpl; [apply occurs_refl | ].
  destruct (is_space c); [apply occurs_cons, IH | apply occurs_refl].
Qed.

Lemma rstrip_prefix (t : string) : exists b, t = rstrip t ++ b.
Proof.
  induction t as [ | c r IH]; simpl; [exists EmptyString; reflexivity | ].
  destruct IH as (b & E). destruct (rstrip r) as [ | y r'] eqn:Er.
  - destruct (is_space c).
    + exists (String c r). reflexivity.
    + exists b. simpl in E. rewrite <- E. reflexivity.
  - exists b. rewrite E at 1. reflexivity.
Qed.

Lemma strip_occurs (t : string) : occurs (strip t) t.
Proof.
  apply occurs_trans with (lstrip t); [ | apply lstrip_occurs].
  unfold strip. destruct (rstrip_prefix (lstrip t)) as (b & E).
  exists EmptyString, b. exact E.
Qed.

Lemma occurs_lstrip (m t : string) :
  m <> EmptyString -> no_space m = true -> occurs m t -> occurs m (lstrip t).
Proof.
  intros Hne Hm. induction t as [ | c r IH]; intros H; simpl; [assumption | ].
  destruct (is_space c) eqn:Ec; [ | assumption].
  apply IH. destruct H as (a & b & E). destruct a as [ | x a].
  - destruct m as [ | y m]; [contradiction | ].
    simpl in E, Hm. injection E as -> _. rewrite Ec in Hm. discriminate Hm.
  - injection E as _ ->. exists a, b. reflexivity.
Qed.

Lemma rstrip_keeps_prefix (m b : string) :
  m <> EmptyString -> no_space m = true ->
  exists b', rstrip (m ++ b) = m ++ b'.
Proof.
  induction m as [ | x m IH]; intros Hne Hm; [contradiction | ].
  simpl in Hm. apply andb_true_iff in Hm. destruct Hm as [Hx Hm].
  apply negb_true_iff in Hx.
  change (String x m ++ b) with (String x (m ++ b)). cbn [rstrip].
  destruct m as [ | y m].
  - simpl. destruct (rstrip b) as [ | z r'].
    + rewrite Hx. exists EmptyString. reflexivity.
    + exists (String z r'). reflexivity.
  - destruct (IH ltac:(discriminate) Hm) as (b' & E). rewrite E.
    exists b'. reflexivity.
Qed.

Lemma occurs_rstrip (m t : string) :
  m <> EmptyString -> no_space m = true -> occurs m t -> occurs m (rstrip t).
Proof.
  intros Hne Hm (a & b & ->). induction a as [ | c a IH].
  - destruct (rstrip_keeps_prefix m b Hne Hm) as (b' & E).
    simpl. rewrite E. exists EmptyString, b'. reflexivity.
  - change (String c a ++ m ++ b) with (String c (a ++ m ++ b)). cbn [rstrip].
    pose proof (occurs_nonempty _ _ Hne IH) as Hr.
    destruct (rstrip (a ++ m ++ b)) as [ | y r']; [contradiction | ].
    apply occurs_cons, IH.
Qed.

(** Stripping and splitting into lines neither hides nor brings in a word
    that holds no white space. *)
Lemma occurs_in_stripped_lines (m t : string) :
  m <> EmptyString -> no_space m = true ->
  (exists line, In line (split nl (strip t)) /\ occurs m line) <-> occurs m t.
Proof.
  intros Hne Hm. split.
  - intros (line & Hin & Hocc).
    apply occurs_trans with (strip t); [ | apply strip_occurs].
    apply occurs_trans with line; [assumption | ].
    apply (split_line_occurs nl). assumption.
  - intros H. apply occurs_in_a_line.
    + clear Hne H. induction m as [ | c m IH]; [reflexivity | ].
      simpl in Hm. apply andb_true_iff in Hm. destruct Hm as [Hc Hm].
      apply rfind_absent_cons. split; [ | apply IH, Hm].
      destruct (Ascii.eqb_spec c nl) as [-> | ]; [discriminate Hc | reflexivity].
    + unfold strip. apply occurs_rstrip, occurs_lstrip; assumption.
Qed.

End Occurrences.

(** ** Lists *)

Section ListFacts.

Context {A : Type}.

Lemma Permutation_filter (f : A -> bool) (l l' : list A) :
  Permutation l l' -> Permutation (filter f l) (filter f l').
Proof.
  induction 1 as [ | x l l' _ IH | x y l | l l' l'' _ IH1 _ IH2]; simpl.
  - constructor.
  - destruct (f x); [constructor | ]; assumption.
  - destruct (f x), (f y); try apply Permutation_refl. apply perm_swap.
  - eapply Permutation_trans; eassumption.
Qed.

Lemma filter_keeps_all (f : A -> bool) (l : list A) :
  (forall x, In x l -> f x = true) -> filter f l = l.
Proof.
  induction l as [ | a l IH]; intros H; simpl; [reflexivity | ].
  rewrite (H a (or_introl eq_refl)), IH; [reflexivity | ].
  intros x Hx. apply H. right. assumption.
Qed.

Lemma pick_as_map (d : A) (l : list A) (order : list nat) :
  (forall i, In i order -> (i < List.length l)%nat) ->
  pick l order = map (fun i => nth i l d) order.
Proof.
  induction order as [ | i rest IH]; intros H; simpl; [reflexivity | ].
  rewrite (nth_error_nth' l d (H i (or_introl eq_refl))).
  rewrite IH; [reflexivity | ].
  intros k Hk. apply H. right. assumption.
Qed.

Lemma map_nth_indices (d : A) (l : list A) :
  map (fun i => nth i l d) (seq 0 (List.length l)) = l.
Proof.
  induction l as [ | a l IH]; simpl; [reflexivity | ].
  f_equal. rewrite <- seq_shift, map_map. exact IH.
Qed.

(** Futures taken in a completion order that names each of them once are
    the submitted futures, rearranged. *)
Lemma pick_permutation (l : list A) (order : list nat) :
  Permutation (seq 0 (List.length l)) order -> Permutation (pick l order) l.
Proof.
  intros H. destruct l as [ | d l'] eqn:El.
  - simpl in H. apply Permutation_nil in H. subst order. constructor.
  - rewrite <- El in *. clear El l'.
    rewrite (pick_as_map d).
    + eapply Permutation_trans.
      * apply Permutation_map, Permutation_sym. exact H.
      * rewrite map_nth_indices. apply Permutation_refl.
    + intros i Hi. apply Permutation_sym in H.
      apply (Permutation_in _ H), in_seq in Hi. lia.
Qed.

(** An element with a property no element before it has is found at one
    place only. *)
Lemma split_at_first (P : A -> bool) (l1 l2 l1' l2' : list A) (x x' : A) :
  (l1 ++ x :: l2 = l1' ++ x' :: l2')%list ->
  forallb (fun a => negb (P a)) l1 = true ->
  P x' = true ->
  (l1' = l1 /\ x' = x /\ l2' = l2)
  \/ exists mid, l2 = (mid ++ x' :: l2')%list.
Proof.
  revert l1'. induction l1 as [ | a l1 IH]; intros l1' E Hall Hx'.
  - destruct l1' as [ | b l1']; simpl in E; injection E as E1 E2.
    + left. subst. auto.
    + right. exists l1'. assumption.
  - simpl in Hall. apply andb_true_iff in Hall. destruct Hall as [Ha Hall].
    destruct l1' as [ | b l1']; simpl in E; injection E as E1 E2.
    + subst a. rewrite Hx' in Ha. discriminate.
    + destruct (IH l1' E2 Hall Hx') as [(H1 & H2 & H3) | [mid Hmid]].
      * left. subst. auto.
      * right. exists mid. assumption.
Qed.

End ListFacts.

(** ** Output naming *)

Section Naming.

Lemma stem_no_sep (path : string) : rfind PosixPath.sep (stem path) = -1.
Proof. apply splitext_root_no_sep, basename_no_sep. Qed.

Lemma rendition_filename_eq (path resolution : string) (hdr : bool) :
  rendition_filename path resolution hdr
  = rendition_name path resolution hdr ++ ".mp4".
Proof.
  unfold rendition_filename, rendition_name, stem, hdr_tag.
  repeat rewrite append_assoc. destruct hdr; reflexivity.
Qed.

Lemma rendition_name_starts (path resolution : string) (hdr : bool) (ext : string) :
  startswith PosixPath.sep (rendition_name path resolution hdr ++ ext) = false.
Proof.
  unfold rendition_name. rewrite append_assoc.
  apply startswith_app; [ | reflexivity].
  apply startswith_absent, stem_no_sep.
Qed.

Lemma join_output (name : string) :
  startswith PosixPath.sep name = false ->
  PosixPath.join "output" name = "output/" ++ name.
Proof. intros H. unfold PosixPath.join. rewrite H. reflexivity. Qed.

Lemma rendition_path_eq (path resolution : string) (hdr : bool) :
  rendition_path path resolution hdr
  = "output/" ++ rendition_name path resolution hdr ++ ".mp4".
Proof.
  unfold rendition_path. rewrite rendition_filename_eq.
  apply join_output, rendition_name_starts.
Qed.

Lemma rendition_path_nonempty (path resolution : string) (hdr : bool) :
  (rendition_path path resolution hdr =? EmptyString)%string = false.
Proof. rewrite rendition_path_eq. reflexivity. Qed.

Lemma rendition_name_no_sep (path resolution : string) (hdr : bool) :
  rfind PosixPath.sep resolution = -1 ->
  rfind PosixPath.sep (rendition_name path resolution hdr) = -1.
Proof.
  intros H. unfold rendition_name.
  apply rfind_absent_app; [apply stem_no_sep | ].
  apply rfind_absent_app; [reflexivity | ].
  apply rfind_absent_app; [assumption | ].
  destruct hdr; reflexivity.
Qed.

(** The packager finds the rendition's name back in the rendition's path. *)
Lemma stem_rendition_path (path resolution : string) (hdr : bool) :
  rfind PosixPath.sep resolution = -1 ->
  stem (rendition_path path resolution hdr) = rendition_name path resolution hdr.
Proof.
  intros H. rewrite rendition_path_eq.
  pose proof (rendition_name_no_sep path resolution hdr H) as Hname.
  set (name := rendition_name path resolution hdr) in *.
  assert (Hbase : PosixPath.basename ("output/" ++ name ++ ".mp4") = name ++ ".mp4").
  { unfold PosixPath.basename.
    rewrite rfind_app.
    rewrite (rfind_absent_app _ name ".mp4" Hname eq_refl).
    reflexivity. }
  unfold stem. rewrite Hbase.
  rewrite (splitext_root_ext name ".mp4" "_" (stem path) (resolution ++ "_" ++ hdr_tag hdr));
    auto.
Qed.

Lemma fragmented_path_of_rendition (path resolution : string) (hdr : bool) :
  rfind PosixPath.sep resolution = -1 ->
  fragmented_path_of (rendition_path path resolution hdr)
  = "output/" ++ rendition_name path resolution hdr ++ "-fragmented.mp4".
Proof.
  intros H. unfold fragmented_path_of.
  fold (stem (rendition_path path resolution hdr)).
  rewrite (stem_rendition_path _ _ _ H).
  apply join_output, rendition_name_starts.
Qed.

Lemma resolution_keys (resolution : string) :
  In resolution (map fst resolutions) ->
  resolution = "360p" \/ resolution = "480p"
  \/ resolution = "720p" \/ resolution = "1080p".
Proof. simpl. intuition. Qed.

Lemma resolution_key_no_sep (resolution : string) :
  In resolution (map fst resolutions) -> rfind PosixPath.sep resolution = -1.
Proof.
  intros H. destruct (resolution_keys _ H) as [E | [E | [E | E]]];
    subst; reflexivity.
Qed.

(** Two jobs of the table that share a name are the same job. *)
Lemma rendition_name_inj (path r1 r2 : string) (h1 h2 : bool) (e1 e2 : string) :
  In r1 (map fst resolutions) -> In r2 (map fst resolutions) ->
  rendition_name path r1 h1 ++ e1 = rendition_name path r2 h2 ++ e2 ->
  (r1, h1) = (r2, h2).
Proof.
  intros H1 H2 E. unfold rendition_name in E.
  repeat rewrite append_assoc in E. apply append_inv_head in E.
  destruct (resolution_keys _ H1) as [E1 | [E1 | [E1 | E1]]];
    destruct (resolution_keys _ H2) as [E2 | [E2 | [E2 | E2]]];
    subst r1 r2; destruct h1, h2; simpl in E;
    solve [reflexivity | discriminate E].
Qed.

End Naming.

(** ** Programs *)

#[local] Arguments String.append : simpl never.

(** Unfolds the monad's operations and computes the match they expose. *)
Ltac prog_eval :=
  unfold print, emit, ret, raise, sys_exit, decode, lift; simpl.

Ltac prog_done :=
  prog_eval; repeat rewrite <- app_assoc; simpl; eauto.

Section ProgramLaws.

Context {F : PyFloat}.
Variable w : world.

Lemma bind_ret_eq {A B} (m : prog A) (k : A -> prog B) tr a tr' :
  m tr = (Ret a, tr') -> bind m k tr = k a tr'.
Proof. intros E. unfold bind. rewrite E. reflexivity. Qed.

Lemma bind_raise_eq {A B} (m : prog A) (k : A -> prog B) tr e tr' :
  m tr = (Raise e, tr') -> bind m k tr = (Raise e, tr').
Proof. intros E. unfold bind. rewrite E. reflexivity. Qed.

Lemma try_ret_eq {A} (body : prog A) handler tr a tr' :
  body tr = (Ret a, tr') -> try_except body handler tr = (Ret a, tr').
Proof. intros E. unfold try_except. rewrite E. reflexivity. Qed.

Lemma try_raise_eq {A} (body : prog A) handler tr e tr' :
  body tr = (Raise e, tr') -> try_except body handler tr = handler e tr'.
Proof. intros E. unfold try_except. rewrite E. reflexivity. Qed.

Lemma subprocess_run_eq cmd tr :
  subprocess_run w cmd tr
  = match run_tool w tr cmd with
    | inl e => (Raise e, (tr ++ [EvRun cmd (run_tool w tr cmd)])%list)
    | inr cp => (Ret cp, (tr ++ [EvRun cmd (run_tool w tr cmd)])%list)
    end.
Proof. unfold subprocess_run. destruct (run_tool w tr cmd); reflexivity. Qed.

(** [check_hdr] with the global bound: one probe of the global's path, a
    verdict read off its answer, an error report when the body raised. *)
Lemma check_hdr_bound gpath tr :
  let res := run_tool w tr (hdr_probe_cmd gpath) in
  check_hdr w (Some gpath) tr
  = (Ret (existsb line_is_hdr (probe_lines res)),
     (tr ++ EvRun (hdr_probe_cmd gpath) res
         :: error_report "Error checking HDR with ffprobe: " (hdr_probe_error res))%list).
Proof.
  intros res. subst res.
  unfold check_hdr, try_except, bind, load_global, ret.
  rewrite subprocess_run_eq.
  destruct (run_tool w tr (hdr_probe_cmd gpath)) as [e | cp] eqn:E; simpl.
  - unfold print, emit. rewrite <- app_assoc. reflexivity.
  - destruct (stdout cp) as [text | ] eqn:Eout; simpl.
    + reflexivity.
    + unfold print, emit. rewrite <- app_assoc. reflexivity.
Qed.

Lemma check_hdr_unbound tr :
  check_hdr w None tr
  = (Ret false,
     (tr ++ [EvPrint "Error checking HDR with ffprobe: name 'video_path' is not defined"])%list).
Proof. reflexivity. Qed.

Lemma get_duration_total path tr :
  exists d tr', get_duration w path tr = (Ret d, tr').
Proof.
  unfold get_duration, try_except, bind. rewrite subprocess_run_eq.
  destruct (run_tool w tr (duration_probe_cmd path)) as [e | cp]; simpl;
    [prog_done | ].
  destruct (stdout cp) as [text | ]; simpl; [ | prog_done].
  destruct (float_of_str (strip text)); prog_done.
Qed.

Lemma get_duration_failure path tr e :
  let res := run_tool w tr (duration_probe_cmd path) in
  duration_probe_failure res e ->
  get_duration w path tr
  = (Ret None,
     (tr ++ [EvRun (duration_probe_cmd path) res;
             EvPrint ("Error getting duration: " ++ exn_str e)])%list).
Proof.
  intros res H.
  unfold get_duration, try_except, bind. rewrite subprocess_run_eq.
  fold res. clearbody res.
  destruct H as [e | cp e Hout | cp text e Hout Hparse]; simpl.
  - unfold print, emit. rewrite <- app_assoc. reflexivity.
  - rewrite Hout. simpl. unfold print, emit. rewrite <- app_assoc. reflexivity.
  - rewrite Hout. simpl. rewrite Hparse. simpl.
    unfold print, emit. rewrite <- app_assoc. reflexivity.
Qed.

Lemma get_frame_rate_total path tr :
  exists fr tr', get_frame_rate w path tr = (Ret fr, tr').
Proof.
  unfold get_frame_rate, try_except, bind. rewrite subprocess_run_eq.
  destruct (run_tool w tr (frame_rate_probe_cmd path)) as [e | cp]; simpl;
    [prog_done | ].
  destruct (stdout cp) as [text | ]; simpl; [ | prog_done].
  destruct (PyInt.unpack2 (split "/" (strip text))) as [e | [num denom]]; simpl;
    [prog_done | ].
  destruct (truediv num denom); prog_done.
Qed.

Lemma get_frame_rate_failure path tr e :
  let res := run_tool w tr (frame_rate_probe_cmd path) in
  frame_rate_probe_failure res e ->
  get_frame_rate w path tr
  = (Ret None,
     (tr ++ [EvRun (frame_rate_probe_cmd path) res;
             EvPrint ("Error getting frame rate: " ++ exn_str e)])%list).
Proof.
  intros res H.
  unfold get_frame_rate, try_except, bind. rewrite subprocess_run_eq.
  fold res. clearbody res.
  destruct H as [e | cp e Hout | cp text e Hout Hparse
                 | cp text num Hout Hparse
                 | cp text num denom e Hout Hparse Hnz Hdiv]; simpl.
  - unfold print, emit. rewrite <- app_assoc. reflexivity.
  - rewrite Hout. simpl. unfold print, emit. rewrite <- app_assoc. reflexivity.
  - rewrite Hout. simpl. rewrite Hparse. simpl.
    unfold print, emit. rewrite <- app_assoc. reflexivity.
  - rewrite Hout. simpl. rewrite Hparse. simpl.
    unfold print, emit. rewrite <- app_assoc. reflexivity.
  - rewrite Hout. simpl. rewrite Hparse. simpl. unfold truediv.
    destruct (Z.eqb_spec denom 0) as [Hz | _]; [contradiction | ].
    rewrite Hdiv. simpl. unfold print, emit. rewrite <- app_assoc. reflexivity.
Qed.

(** The constructor never raises; its fields are what the three probes
    return, run one after the other. *)
Lemma VideoProcessor_init_eq g path tr :
  exists hdr d fr tr1 tr2 tr3,
    check_hdr w g tr = (Ret hdr, tr1)
    /\ get_duration w path tr1 = (Ret d, tr2)
    /\ get_frame_rate w path tr2 = (Ret fr, tr3)
    /\ VideoProcessor_init w g path tr
       = (Ret {| video_path := path; is_hdr := hdr;
                 duration := d; frame_rate := fr |}, tr3).
Proof.
  assert (Hh : exists hdr tr1, check_hdr w g tr = (Ret hdr, tr1)).
  { destruct g as [gpath | ].
    - rewrite check_hdr_bound. eauto.
    - rewrite check_hdr_unbound. eauto. }
  destruct Hh as (hdr & tr1 & Hh).
  destruct (get_duration_total path tr1) as (d & tr2 & Hd).
  destruct (get_frame_rate_total path tr2) as (fr & tr3 & Hf).
  exists hdr, d, fr, tr1, tr2, tr3. repeat split; try assumption.
  unfold VideoProcessor_init.
  rewrite (bind_ret_eq _ _ _ _ _ Hh), (bind_ret_eq _ _ _ _ _ Hd),
    (bind_ret_eq _ _ _ _ _ Hf).
  reflexivity.
Qed.

(** [transcode_and_overlay] never raises: a job outside the table, a tool
    that cannot be run and a nonzero exit all end in a report and [None]. *)
Lemma transcode_and_overlay_eq self resolution hdr tr :
  transcode_and_overlay w self resolution hdr tr
  = match job_plan self resolution hdr with
    | inl e =>
        (Ret None,
         (tr ++ [EvPrint ("Error in transcode_and_overlay: " ++ exn_str e)])%list)
    | inr (cmd, out) =>
        let res := run_tool w tr cmd in
        let err := tool_error "Error during transcoding: " res in
        (Ret (match err with None => Some out | Some _ => None end),
         (tr ++ EvRun cmd res
             :: error_report "Error in transcode_and_overlay: " err)%list)
    end.
Proof.
  unfold transcode_and_overlay, job_plan, dimensions, try_except, bind.
  destruct (dict_get resolutions resolution) as [e | dims]; simpl; [reflexivity | ].
  destruct (PyInt.unpack2 (split "x" dims)) as [e | [width height]]; simpl;
    [reflexivity | ].
  destruct (overlay_spec width height hdr) as [e | o]; simpl; [reflexivity | ].
  rewrite subprocess_run_eq.
  destruct (run_tool w tr _) as [e | cp]; simpl.
  - unfold print, emit. rewrite <- app_assoc. reflexivity.
  - destruct (returncode cp =? 0); simpl; [reflexivity | ].
    destruct (stderr cp) as [msg | ]; simpl;
      unfold print, emit; rewrite <- app_assoc; reflexivity.
Qed.

(** *** The packager *)

Lemma fragment_all_cons input rest fragmented_paths tr :
  let cmd := mp4fragment_cmd input (fragmented_path_of input) in
  let res := run_tool w tr cmd in
  fragment_all w (input :: rest) fragmented_paths tr
  = match tool_error "Error during mp4fragment: " res with
    | None =>
        fragment_all w rest (fragmented_paths ++ [fragmented_path_of input])%list
          (tr ++ [EvRun cmd res])%list
    | Some e => (Raise e, (tr ++ [EvRun cmd res])%list)
    end.
Proof.
  intros cmd res. subst res. simpl. fold cmd.
  unfold bind. rewrite subprocess_run_eq.
  destruct (run_tool w tr cmd) as [e | cp]; simpl; [reflexivity | ].
  destruct (returncode cp =? 0); simpl; [reflexivity | ].
  destruct (stderr cp); reflexivity.
Qed.

Lemma tool_error_none what res :
  tool_error what res = None ->
  exists cp, res = inr cp /\ returncode cp = 0.
Proof.
  destruct res as [e | cp]; simpl; [discriminate | ].
  destruct (Z.eqb_spec (returncode cp) 0) as [Hz | Hnz].
  - eauto.
  - destruct (stderr cp); discriminate.
Qed.

Lemma fragment_all_shape input_paths :
  forall fragmented_paths tr,
  exists evs,
    Forall clean_fragment evs
    /\ ((exists all, fragment_all w input_paths fragmented_paths tr
                     = (Ret all, (tr ++ evs)%list))
        \/ (exists input res e,
              In input input_paths
              /\ tool_error "Error during mp4fragment: " res = Some e
              /\ fragment_all w input_paths fragmented_paths tr
                 = (Raise e,
                    (tr ++ evs
                        ++ [EvRun (mp4fragment_cmd input (fragmented_path_of input))
                                  res])%list))).
Proof.
  induction input_paths as [ | input rest IH]; intros acc tr.
  - exists []. split; [constructor | left]. exists acc.
    simpl. unfold ret. rewrite app_nil_r. reflexivity.
  - rewrite fragment_all_cons.
    set (cmd := mp4fragment_cmd input (fragmented_path_of input)).
    set (res := run_tool w tr cmd).
    destruct (tool_error "Error during mp4fragment: " res) as [e | ] eqn:Eerr.
    + exists []. split; [constructor | right].
      exists input, res, e. simpl. auto.
    + destruct (tool_error_none _ _ Eerr) as (cp & Hres & Hz).
      destruct (IH (acc ++ [fragmented_path_of input])%list
                   (tr ++ [EvRun cmd res])%list)
        as (evs & Hclean & [(all & E) | (bad & res' & e & Hin & Herr & E)]);
        exists (EvRun cmd res :: evs);
        (split; [constructor; [exists input, cp; rewrite Hres; auto | assumption] | ]).
      * left. exists all. rewrite E, <- app_assoc. reflexivity.
      * right. exists bad, res', e. repeat split; simpl; auto.
        rewrite E, <- app_assoc. reflexivity.
Qed.

(** [package] never raises.  Either every fragmentation returned 0, the
    list is printed and the manifest tool runs once; or the first
    fragmentation that goes wrong is the last tool call of the packager. *)
Lemma package_shape input_paths tr :
  exists evs,
    Forall clean_fragment evs
    /\ ((exists listing fragmented res,
           package w input_paths tr
           = (Ret tt,
              (tr ++ evs
                  ++ EvPrint listing
                  :: EvRun (mp4dash_cmd fragmented) res
                  :: error_report "Error in Bento4Packager: "
                       (tool_error "Error during mp4dash: " res))%list))
        \/ (exists input res e,
              In input input_paths
              /\ tool_error "Error during mp4fragment: " res = Some e
              /\ package w input_paths tr
                 = (Ret tt,
                    (tr ++ evs
                        ++ [EvRun (mp4fragment_cmd input (fragmented_path_of input)) res;
                            EvPrint ("Error in Bento4Packager: " ++ exn_str e)])%list))).
Proof.
  destruct (fragment_all_shape input_paths [] tr)
    as (evs & Hclean & [(all & E) | (bad & res & e & Hin & Herr & E)]);
    exists evs; (split; [assumption | ]).
  - left.
    exists ("Fragmented files created: " ++ repr_list all), all,
      (run_tool w ((tr ++ evs) ++ [EvPrint ("Fragmented files created: " ++ repr_list all)])%list
                (mp4dash_cmd all)).
    unfold package, try_except.
    rewrite (bind_ret_eq _ _ _ _ _ E).
    unfold bind at 1. unfold print at 1, emit.
    unfold bind. rewrite subprocess_run_eq.
    destruct (run_tool w _ (mp4dash_cmd all)) as [e | cp]; simpl.
    + prog_eval. repeat rewrite <- app_assoc. reflexivity.
    + destruct (returncode cp =? 0); simpl.
      * prog_eval. repeat rewrite <- app_assoc. reflexivity.
      * destruct (stderr cp); prog_eval; repeat rewrite <- app_assoc; reflexivity.
  - right. exists bad, res, e. repeat split; auto.
    unfold package, try_except.
    rewrite (bind_raise_eq _ _ _ _ _ E).
    prog_eval. repeat rewrite <- app_assoc. reflexivity.
Qed.

Lemma package_total input_paths tr :
  exists tr', package w input_paths tr = (Ret tt, tr').
Proof.
  destruct (package_shape input_paths tr)
    as (evs & _ & [(l & f & r & E) | (i & r & e & _ & _ & E)]);
    rewrite E; eauto.
Qed.

(** *** The worker pool *)

Lemma job_plan_table self resolution hdr :
  In resolution (map fst resolutions) ->
  exists width height filter,
    job_plan self resolution hdr
    = inr (ffmpeg_cmd self width height filter
             (rendition_path (video_path self) resolution hdr),
           rendition_path (video_path self) resolution hdr).
Proof.
  intros H. unfold job_plan.
  destruct (resolution_keys _ H) as [E | [E | [E | E]]]; subst resolution;
    destruct hdr; do 3 eexists; reflexivity.
Qed.

Lemma job_plan_out self resolution hdr cmd out :
  job_plan self resolution hdr = inr (cmd, out) ->
  out = rendition_path (video_path self) resolution hdr.
Proof.
  unfold job_plan.
  destruct (dict_get resolutions resolution); [discriminate | ].
  destruct (dimensions s) as [e | [width height]]; [discriminate | ].
  destruct (overlay_spec width height hdr); [discriminate | ].
  intros E. injection E as _ E. symmetry. exact E.
Qed.

Lemma collect_cons self resolution hdr rest files tr :
  collect w self ((resolution, hdr) :: rest) files tr
  = match job_plan self resolution hdr with
    | inl e =>
        collect w self rest files
          (tr ++ [EvPrint ("Error in transcode_and_overlay: " ++ exn_str e)])%list
    | inr (cmd, out) =>
        let res := run_tool w tr cmd in
        let err := tool_error "Error during transcoding: " res in
        collect w self rest
          (match err with
           | None => (files ++ [out])%list
           | Some _ => files
           end)
          (tr ++ EvRun cmd res
              :: error_report "Error in transcode_and_overlay: " err)%list
    end.
Proof.
  cbn [collect]. unfold bind at 1. unfold run_future.
  rewrite transcode_and_overlay_eq.
  destruct (job_plan self resolution hdr) as [e | [cmd out]] eqn:Eplan.
  - reflexivity.
  - cbv zeta.
    destruct (tool_error "Error during transcoding: " (run_tool w tr cmd)); [reflexivity | ].
    rewrite (job_plan_out _ _ _ _ _ Eplan).
    unfold bind, try_except, future_result, ret.
    rewrite rendition_path_nonempty. reflexivity.
Qed.

Lemma collect_total self completed :
  forall files tr, exists files' tr', collect w self completed files tr = (Ret files', tr').
Proof.
  induction completed as [ | [resolution hdr] rest IH]; intros files tr.
  - simpl. unfold ret. eauto.
  - rewrite collect_cons.
    destruct (job_plan self resolution hdr) as [e | [cmd out]]; apply IH.
Qed.

(** *** The orchestrator *)

(** With the input file in place and the output directory created, [main]
    probes, runs the batch and ends with the packager's run on the files
    the batch collected. *)
Lemma main_eq g path tr :
  path_exists w path = true ->
  makedirs w tr "output" = None ->
  exists self tr1 files tr2,
    VideoProcessor_init w g path (tr ++ [EvMakedirs "output" None])%list
    = (Ret self, tr1)
    /\ collect w self (as_completed w (transcoding_jobs (is_hdr self))) []
         (tr1 ++ [EvPrint ("Is HDR: " ++ str_bool (is_hdr self))])%list
       = (Ret files, tr2)
    /\ main w g path tr = package w files tr2.
Proof.
  intros Hex Hmk.
  destruct (VideoProcessor_init_eq g path (tr ++ [EvMakedirs "output" None])%list)
    as (hdr & d & fr & t1 & t2 & tr1 & _ & _ & _ & Hinit).
  set (self := {| video_path := path; is_hdr := hdr; duration := d; frame_rate := fr |}) in *.
  destruct (collect_total self (as_completed w (transcoding_jobs (is_hdr self))) []
              (tr1 ++ [EvPrint ("Is HDR: " ++ str_bool (is_hdr self))])%list)
    as (files & tr2 & Hcollect).
  exists self, tr1, files, tr2. repeat split; try assumption.
  unfold main. rewrite Hex. cbn [negb].
  unfold bind at 1. unfold os_makedirs. rewrite Hmk.
  rewrite (bind_ret_eq _ _ _ _ _ Hinit).
  unfold bind at 1. unfold print at 1, emit.
  rewrite (bind_ret_eq _ _ _ _ _ Hcollect).
  destruct (package_total files tr2) as (tr3 & Hpack).
  rewrite (try_ret_eq _ _ _ _ _ Hpack). symmetry. exact Hpack.
Qed.

Lemma main_missing g path tr :
  path_exists w path = false ->
  main w g path tr = (SysExit 1, (tr ++ [EvPrint ("File not found: " ++ path)])%list).
Proof. intros H. unfold main. rewrite H. reflexivity. Qed.

Lemma main_blocked g path tr e :
  path_exists w path = true ->
  makedirs w tr "output" = Some e ->
  main w g path tr = (Raise e, (tr ++ [EvMakedirs "output" (Some e)])%list).
Proof.
  intros Hex Hmk. unfold main. rewrite Hex. cbn [negb].
  unfold bind, os_makedirs. rewrite Hmk. reflexivity.
Qed.

(** *** A batch in a world that answers each job the same way *)

Lemma tool_error_fails what res :
  match res with
  | inl _ => True
  | inr cp => returncode cp <> 0
  end ->
  exists e, tool_error what res = Some e.
Proof.
  destruct res as [e | cp]; simpl; [eauto | ].
  intros H. apply Z.eqb_neq in H. rewrite H.
  destruct (stderr cp); eauto.
Qed.

Lemma tool_error_succeeds what res :
  (exists cp, res = inr cp /\ returncode cp = 0) -> tool_error what res = None.
Proof.
  intros (cp & E & Hz). subst res. simpl. rewrite Hz. reflexivity.
Qed.

Lemma job_not_both self j : job_succeeds w self j -> job_fails w self j -> False.
Proof.
  intros (cmd & out & Hp & Hs) (cmd' & out' & Hp' & Hf).
  rewrite Hp in Hp'. injection Hp' as <- <-.
  destruct (Hs []) as (cp & E & Hz). specialize (Hf []).
  rewrite E in Hf. contradiction.
Qed.

Lemma collect_stable self (ok : job -> bool) completed :
  (forall j, In j completed ->
     if ok j then job_succeeds w self j else job_fails w self j) ->
  forall files tr,
  exists added,
    collect w self completed files tr
    = (Ret (files ++ map (job_output self) (filter ok completed))%list,
       (tr ++ added)%list)
    /\ forall j, In j completed -> job_ran self j added.
Proof.
  induction completed as [ | [resolution hdr] rest IH]; intros Hok files tr.
  - exists []. simpl. unfold ret. rewrite !app_nil_r. split; [reflexivity | ].
    intros j [].
  - assert (Hrest : forall j, In j rest ->
                      if ok j then job_succeeds w self j else job_fails w self j).
    { intros j Hj. apply Hok. right. assumption. }
    specialize (IH Hrest).
    pose proof (Hok (resolution, hdr) (or_introl eq_refl)) as Hj.
    rewrite collect_cons. cbn [filter].
    destruct (ok (resolution, hdr)).
    + destruct Hj as (cmd & out & Hplan & Hs). cbn [fst snd] in Hplan.
      rewrite Hplan. cbv zeta.
      rewrite (tool_error_succeeds _ _ (Hs tr)).
      destruct (IH (files ++ [out])%list
                   (tr ++ [EvRun cmd (run_tool w tr cmd)])%list)
        as (added & E & Hran).
      exists (EvRun cmd (run_tool w tr cmd) :: added). split.
      * cbn [error_report]. rewrite E. cbn [map]. unfold job_output at 2.
        cbn [fst snd].
        rewrite <- (job_plan_out _ _ _ _ _ Hplan).
        repeat rewrite <- app_assoc. reflexivity.
      * intros j [Ej | Hin].
        -- subst j. exists cmd, out, (run_tool w tr cmd). split; [assumption | ].
           left. reflexivity.
        -- destruct (Hran j Hin) as (c & o & r & Hc & Hr).
           exists c, o, r. split; [assumption | right; assumption].
    + destruct Hj as (cmd & out & Hplan & Hf). cbn [fst snd] in Hplan.
      rewrite Hplan. cbv zeta.
      destruct (tool_error_fails "Error during transcoding: " _ (Hf tr)) as (e & He).
      rewrite He.
      destruct (IH files
                   (tr ++ EvRun cmd (run_tool w tr cmd)
                       :: error_report "Error in transcode_and_overlay: " (Some e))%list)
        as (added & E & Hran).
      exists (EvRun cmd (run_tool w tr cmd)
                :: error_report "Error in transcode_and_overlay: " (Some e) ++ added)%list.
      split.
      * rewrite E. repeat rewrite <- app_assoc. reflexivity.
      * intros j [Ej | Hin].
        -- subst j. exists cmd, out, (run_tool w tr cmd). split; [assumption | ].
           left. reflexivity.
        -- destruct (Hran j Hin) as (c & o & r & Hc & Hr).
           exists c, o, r. split; [assumption | ].
           right. apply in_or_app. right. assumption.
Qed.

End ProgramLaws.

(** ** The prober *)

Section Detection.

Lemma hdr_formats_words (fmt : string) :
  In fmt hdr_formats -> fmt <> EmptyString /\ no_space fmt = true.
Proof.
  simpl. intros [<- | [<- | [<- | [<- | []]]]]; split; (discriminate || reflexivity).
Qed.

Lemma line_is_hdr_iff (line : string) :
  line_is_hdr line = true <-> exists fmt, In fmt hdr_formats /\ occurs fmt line.
Proof.
  unfold line_is_hdr. rewrite existsb_exists.
  split; intros (fmt & Hin & H); exists fmt; (split; [assumption | ]);
    apply contains_iff; assumption.
Qed.

Lemma lines_are_hdr_iff (lines : list string) :
  existsb line_is_hdr lines = true
  <-> exists line fmt, In line lines /\ In fmt hdr_formats /\ occurs fmt line.
Proof.
  rewrite existsb_exists. split.
  - intros (line & Hin & H). apply line_is_hdr_iff in H.
    destruct H as (fmt & Hf & Ho). eauto.
  - intros (line & fmt & Hin & Hf & Ho). exists line. split; [assumption | ].
    apply line_is_hdr_iff. eauto.
Qed.

End Detection.

(** C2. The HDR check never raises.  Its verdict is true exactly when a
    marker of the fixed list occurs in one of the lines of the probe's
    output — which is to say, in the output text.  When the probe cannot be
    run or its output cannot be decoded, the verdict is false and the error
    is printed. *)
Theorem hdr_detection :
  forall (w : world) (gpath : string) (tr : trace),
    let res := run_tool w tr (hdr_probe_cmd gpath) in
    exists verdict,
      check_hdr w (Some gpath) tr
      = (Ret verdict,
         (tr ++ EvRun (hdr_probe_cmd gpath) res
             :: error_report "Error checking HDR with ffprobe: "
                  (hdr_probe_error res))%list)
      /\ (verdict = true
          <-> exists line fmt,
                In line (probe_lines res) /\ In fmt hdr_formats /\ occurs fmt line)
      /\ (verdict = true
          <-> exists cp text fmt,
                res = inr cp /\ stdout cp = Text text
                /\ In fmt hdr_formats /\ occurs fmt text)
      /\ (forall e, hdr_probe_error res = Some e -> verdict = false).
Proof.
  intros w gpath tr res.
  exists (existsb line_is_hdr (probe_lines res)).
  split; [apply check_hdr_bound | ].
  split; [apply lines_are_hdr_iff | ].
  split.
  - rewrite lines_are_hdr_iff. unfold probe_lines.
    destruct res as [e | cp].
    + split; [intros (l & f & [] & _) | intros (cp & t & f & E & _); discriminate E].
    + destruct (stdout cp) as [text | ] eqn:Eout.
      * split.
        -- intros (line & fmt & Hin & Hf & Ho). exists cp, text, fmt.
           repeat split; try assumption.
           destruct (hdr_formats_words fmt Hf) as [Hne Hns].
           apply (occurs_in_stripped_lines fmt text Hne Hns). eauto.
        -- intros (cp' & text' & fmt & E & Eout' & Hf & Ho).
           injection E as <-. rewrite Eout in Eout'. injection Eout' as <-.
           destruct (hdr_formats_words fmt Hf) as [Hne Hns].
           apply (occurs_in_stripped_lines fmt text Hne Hns) in Ho.
           destruct Ho as (line & Hin & Ho). eauto.
      * split; [intros (l & f & [] & _) | ].
        intros (cp' & t & f & E & Eout' & _). injection E as <-.
        rewrite Eout in Eout'. discriminate Eout'.
  - intros e He. unfold probe_lines, hdr_probe_error in *.
    destruct res as [e' | cp]; [reflexivity | ].
    destruct (stdout cp); [discriminate He | reflexivity].
Qed.

Lemma hdr_detection_witness :
  fst (check_hdr world_hdr (Some "clip.mp4") []) = Ret true
  /\ fst (check_hdr world_one_failure (Some "clip.mp4") []) = Ret false.
Proof.
  destruct (hdr_detection world_hdr "clip.mp4" []) as (v & E & _ & Hv & _).
  destruct (hdr_detection world_one_failure "clip.mp4" []) as (v' & E' & _ & _ & _).
  rewrite E, E'. cbn [fst]. split.
  - f_equal. apply Hv. do 2 eexists. exists "smpte2084".
    split; [reflexivity | ]. split; [reflexivity | ].
    split; [simpl; tauto | ].
    exists ("bt2020nc" ++ String nl EmptyString), (String nl "bt2020" ++ String nl EmptyString).
    reflexivity.
  - destruct v'; [ | reflexivity].
    exfalso. vm_compute in E'. discriminate E'.
Defined.


(** C8. A duration probe or a frame-rate probe that fails (the tool cannot
    be run, its output is no text or does not parse, the denominator of the
    frame rate is zero) raises nothing: the getter prints the error and
    returns [None].  The transcode worker of any table resolution still
    builds and runs its command, with [str] of the attribute, ["None"] for
    [None], after [-r] and after [-t]. *)
Theorem unknown_sentinel_propagation :
  forall (F : PyFloat) (w : world) (path : string) (tr : trace),
    (forall e,
       duration_probe_failure (run_tool w tr (duration_probe_cmd path)) e ->
       get_duration w path tr
       = (Ret None,
          (tr ++ [EvRun (duration_probe_cmd path)
                        (run_tool w tr (duration_probe_cmd path));
                  EvPrint ("Error getting duration: " ++ exn_str e)])%list))
    /\ (forall e,
          frame_rate_probe_failure (run_tool w tr (frame_rate_probe_cmd path)) e ->
          get_frame_rate w path tr
          = (Ret None,
             (tr ++ [EvRun (frame_rate_probe_cmd path)
                           (run_tool w tr (frame_rate_probe_cmd path));
                     EvPrint ("Error getting frame rate: " ++ exn_str e)])%list))
    /\ (forall (self : VideoProcessor) (resolution : string) (hdr : bool),
          In resolution (map fst resolutions) ->
          exists filter result res rest,
            transcode_and_overlay w self resolution hdr tr
            = (Ret result,
               (tr ++ EvRun
                        (Argv ["ffmpeg"; "-i"; video_path self; "-vf"; filter;
                               "-c:v"; "libx265"; "-crf"; "28";
                               "-preset"; "medium";
                               "-r"; str_opt_float (frame_rate self);
                               "-c:a"; "aac"; "-b:a"; "128k";
                               "-t"; str_opt_float (duration self);
                               rendition_path (video_path self) resolution hdr])
                        res
                   :: rest)%list))
    /\ str_opt_float None = "None".
Proof.
  intros F w path tr. repeat split.
  - intros e H. exact (get_duration_failure w path tr e H).
  - intros e H. exact (get_frame_rate_failure w path tr e H).
  - intros self resolution hdr Hin.
    destruct (job_plan_table self resolution hdr Hin) as (width & height & filter & Hplan).
    rewrite transcode_and_overlay_eq, Hplan. cbv zeta. unfold ffmpeg_cmd.
    do 4 eexists. reflexivity.
Qed.

Lemma unknown_sentinel_propagation_witness :
  @get_duration sample_floats world_unknown "clip.mp4" []
  = (Ret None,
     [EvRun (duration_probe_cmd "clip.mp4") (answer 0 ("N/A" ++ String nl EmptyString) EmptyString);
      EvPrint "Error getting duration: could not convert string to float: 'N/A'"])
  /\ @get_frame_rate sample_floats world_unknown "clip.mp4" []
     = (Ret None,
        [EvRun (frame_rate_probe_cmd "clip.mp4") (answer 0 ("0/0" ++ String nl EmptyString) EmptyString);
         EvPrint "Error getting frame rate: division by zero"]).
Proof.
  destruct (unknown_sentinel_propagation sample_floats world_unknown "clip.mp4" [])
    as (Hd & Hf & _).
  split.
  - apply (Hd (Exn ValueError "could not convert string to float: 'N/A'")).
    apply (duration_unparsable _ ("N/A" ++ String nl EmptyString)); reflexivity.
  - apply (Hf (Exn ZeroDivisionError "division by zero")).
    apply (frame_rate_zero_denominator _ ("0/0" ++ String nl EmptyString) 0); reflexivity.
Defined.

(** ** The planner *)

(** C1. Whatever was probed, an SDR source gets exactly four jobs, one per
    resolution of the table and all with [isHDR = false]; an HDR source gets
    exactly eight, an HDR job and a forced-SDR job for each resolution. *)
Theorem job_enumeration :
  forall (F : PyFloat) (source : VideoProcessor),
    let jobs := transcoding_jobs (is_hdr source) in
    jobs = (if is_hdr source
            then [("360p", true); ("360p", false); ("480p", true); ("480p", false);
                  ("720p", true); ("720p", false); ("1080p", true); ("1080p", false)]
            else [("360p", false); ("480p", false); ("720p", false); ("1080p", false)])
    /\ List.length jobs = (if is_hdr source then 8%nat else 4%nat)
    /\ Forall (fun res =>
                 flags_for res jobs
                 = if is_hdr source then [true; false] else [false])
              (map fst resolutions).
Proof.
  intros F source jobs. subst jobs.
  destruct (is_hdr source); repeat split; repeat constructor.
Qed.

(** ** The overlay marker *)

Lemma resolutions_dimensions :
  forall name dims, In (name, dims) resolutions ->
    (dims = "640x360" /\ dimensions dims = inr (640, 360))
    \/ (dims = "854x480" /\ dimensions dims = inr (854, 480))
    \/ (dims = "1280x720" /\ dimensions dims = inr (1280, 720))
    \/ (dims = "1920x1080" /\ dimensions dims = inr (1920, 1080)).
Proof.
  intros name dims H. simpl in H.
  repeat (destruct H as [H | H]; [inversion H; subst; clear H | ]);
    try contradiction; tauto.
Qed.

(** C5. The overlay computation is a function of the table entry alone: for
    a resolution of the fixed table it returns (it does not raise) green for
    HDR and white for SDR, a radius of 7% (HDR) or 5% (SDR) of the height
    rounded down to a pixel, the abscissa [width - radius] in the right half
    and an ordinate in the top half for HDR ([7%] of the height) and in the
    bottom half for SDR ([height - radius]); two table entries of the same
    height and HDR flag get the same marker. *)
Theorem overlay_spec_table :
  forall name dims width height hdr,
    In (name, dims) resolutions ->
    dimensions dims = inr (width, height) ->
    exists o,
      overlay_spec width height hdr = inr o
      /\ overlay_color o = (if hdr then "green" else "white")
      /\ circle_radius o = (if hdr then 7 * height / 100 else 5 * height / 100)
      /\ overlay_position_x o = width - circle_radius o
      /\ overlay_position_y o
         = (if hdr then 7 * height / 100 else height - circle_radius o)
      /\ width / 2 < overlay_position_x o < width
      /\ (if hdr then 0 < overlay_position_y o < height / 2
          else height / 2 < overlay_position_y o < height)
      /\ forall name' dims' width',
           In (name', dims') resolutions ->
           dimensions dims' = inr (width', height) ->
           overlay_spec width' height hdr = inr o.
Proof.
  intros name dims width height hdr Hin Hdim.
  assert (Hcases :
            (width, height) = (640, 360) \/ (width, height) = (854, 480)
            \/ (width, height) = (1280, 720) \/ (width, height) = (1920, 1080)).
  { destruct (resolutions_dimensions _ _ Hin) as [[_ E] | [[_ E] | [[_ E] | [_ E]]]];
      rewrite E in Hdim; inversion Hdim; tauto. }
  assert (Hsame : forall name' dims' width',
             In (name', dims') resolutions ->
             dimensions dims' = inr (width', height) -> width' = width).
  { intros name' dims' width' Hin' Hdim'.
    destruct (resolutions_dimensions _ _ Hin') as [[_ E] | [[_ E] | [[_ E] | [_ E]]]];
      rewrite E in Hdim'; inversion Hdim'; subst;
      destruct Hcases as [C | [C | [C | C]]]; inversion C; reflexivity. }
  destruct Hcases as [C | [C | [C | C]]]; inversion C; subst; destruct hdr;
    eexists; (split; [reflexivity | ]);
    cbn [overlay_color circle_radius overlay_position_x overlay_position_y];
    repeat split; try reflexivity;
    try (intros name' dims' width' Hin' Hdim';
         rewrite (Hsame _ _ _ Hin' Hdim'); reflexivity).
Qed.

Lemma overlay_spec_table_witness :
  exists o, overlay_spec 1280 720 true = inr o
            /\ circle_radius o = 50 /\ overlay_position_x o = 1230
            /\ overlay_position_y o = 50.
Proof.
  destruct (overlay_spec_table "720p" "1280x720" 1280 720 true) as [o H].
  - simpl. tauto.
  - reflexivity.
  - exists o. destruct H as (E & _ & R & X & Y & _).
    rewrite X, Y, R. repeat split; try assumption.
Defined.

(** ** The names of the output files *)

(** C9. For every job of the table the rendition is written to
    [output/{stem}_{label}_{HDR|SDR}.mp4], [stem] being the input's basename
    without its extension; the packager names its fragmented intermediate
    [output/{stem}_{label}_{HDR|SDR}-fragmented.mp4]; two different jobs
    get different rendition files and different fragmented files. *)
Theorem output_naming :
  forall (path resolution : string) (hdr : bool),
    In resolution (map fst resolutions) ->
    rendition_path path resolution hdr
    = "output/" ++ stem path ++ "_" ++ resolution ++ "_" ++ hdr_tag hdr ++ ".mp4"
    /\ fragmented_path_of (rendition_path path resolution hdr)
       = "output/" ++ stem path ++ "_" ++ resolution ++ "_" ++ hdr_tag hdr
         ++ "-fragmented.mp4"
    /\ forall (resolution' : string) (hdr' : bool),
         In resolution' (map fst resolutions) ->
         (resolution', hdr') <> (resolution, hdr) ->
         rendition_path path resolution' hdr' <> rendition_path path resolution hdr
         /\ fragmented_path_of (rendition_path path resolution' hdr')
            <> fragmented_path_of (rendition_path path resolution hdr).
Proof.
  intros path resolution hdr Hin.
  pose proof (resolution_key_no_sep _ Hin) as Hsep.
  split; [ | split].
  - rewrite rendition_path_eq. unfold rendition_name.
    repeat rewrite append_assoc. reflexivity.
  - rewrite (fragmented_path_of_rendition _ _ _ Hsep). unfold rendition_name.
    repeat rewrite append_assoc. reflexivity.
  - intros resolution' hdr' Hin' Hneq.
    pose proof (resolution_key_no_sep _ Hin') as Hsep'.
    split; intros E; apply Hneq.
    + rewrite !rendition_path_eq in E. apply append_inv_head in E.
      exact (rendition_name_inj _ _ _ _ _ _ _ Hin' Hin E).
    + rewrite (fragmented_path_of_rendition _ _ _ Hsep),
        (fragmented_path_of_rendition _ _ _ Hsep') in E.
      apply append_inv_head in E.
      exact (rendition_name_inj _ _ _ _ _ _ _ Hin' Hin E).
Qed.

Lemma output_naming_witness :
  rendition_path "/videos/clip.v2.mov" "720p" true = "output/clip.v2_720p_HDR.mp4"
  /\ fragmented_path_of (rendition_path "/videos/clip.v2.mov" "720p" true)
     = "output/clip.v2_720p_HDR-fragmented.mp4".
Proof.
  destruct (output_naming "/videos/clip.v2.mov" "720p" true) as (E1 & E2 & _).
  - simpl. tauto.
  - split; [exact E1 | exact E2].
Defined.

(** ** The coordinator *)

(** C3. In a batch where one job's transcoder call fails (it raises or
    exits nonzero) and every other job's call succeeds, each job of the batch
    is run, the coordinator collects the output paths of all the other jobs
    and nothing for the failed one, and [main] goes on with the packager on
    exactly these paths. *)
Theorem partial_failure_tolerance :
  forall (F : PyFloat) (w : world) (g : globals) (path : string) (tr tr1 : trace)
         (self : VideoProcessor) (before after : list job) (failed : job),
    let jobs := transcoding_jobs (is_hdr self) in
    path_exists w path = true ->
    makedirs w tr "output" = None ->
    VideoProcessor_init w g path (tr ++ [EvMakedirs "output" None])%list
    = (Ret self, tr1) ->
    jobs = (before ++ failed :: after)%list ->
    Permutation (seq 0 (List.length jobs)) (completion_order w (List.length jobs)) ->
    job_fails w self failed ->
    (forall j, In j (before ++ after)%list -> job_succeeds w self j) ->
    exists files added,
      collect w self (as_completed w jobs) []
        (tr1 ++ [EvPrint ("Is HDR: " ++ str_bool (is_hdr self))])%list
      = (Ret files,
         ((tr1 ++ [EvPrint ("Is HDR: " ++ str_bool (is_hdr self))]) ++ added)%list)
      /\ Permutation files (map (job_output self) (before ++ after)%list)
      /\ S (List.length files) = List.length jobs
      /\ ~ In (job_output self failed) files
      /\ (forall j, In j jobs -> job_ran self j added)
      /\ main w g path tr
         = package w files
             ((tr1 ++ [EvPrint ("Is HDR: " ++ str_bool (is_hdr self))]) ++ added)%list.
Proof.
  intros F w g path tr tr1 self before after failed jobs
         Hex Hmk Hinit Hjobs Hperm Hfail Hsucc.
  set (ok := fun j : job => negb (job_eqb j failed)).
  assert (Heqb : forall j, job_eqb j failed = true <-> j = failed).
  { intros [r h]. destruct failed as [r' h']. unfold job_eqb. cbn [fst snd].
    rewrite andb_true_iff, String.eqb_eq, Bool.eqb_true_iff.
    split; [intros [-> ->]; reflexivity | intros E; injection E; auto]. }
  assert (Hnotin : ~ In failed (before ++ after)%list).
  { intros Hin. exact (job_not_both w self failed (Hsucc _ Hin) Hfail). }
  assert (Hothers : forall j, In j (before ++ after)%list -> ok j = true).
  { intros j Hin. unfold ok. destruct (job_eqb j failed) eqn:E; [ | reflexivity].
    apply Heqb in E. subst j. contradiction. }
  assert (Hokfailed : ok failed = false).
  { unfold ok. replace (job_eqb failed failed) with true; [reflexivity | ].
    symmetry. apply Heqb. reflexivity. }
  assert (Hcompleted : Permutation (as_completed w jobs) jobs).
  { apply pick_permutation. exact Hperm. }
  assert (Hverdict : forall j, In j (as_completed w jobs) ->
                       if ok j then job_succeeds w self j else job_fails w self j).
  { intros j Hin. apply (Permutation_in _ Hcompleted) in Hin.
    rewrite Hjobs in Hin. apply in_app_or in Hin.
    destruct (ok j) eqn:E.
    - apply Hsucc. apply in_or_app.
      destruct Hin as [Hin | [Hin | Hin]]; auto.
      subst j. rewrite Hokfailed in E. discriminate.
    - destruct Hin as [Hin | [Hin | Hin]].
      + rewrite (Hothers j) in E; [discriminate | apply in_or_app; auto].
      + subst j. assumption.
      + rewrite (Hothers j) in E; [discriminate | apply in_or_app; auto]. }
  destruct (collect_stable w self ok (as_completed w jobs) Hverdict []
              (tr1 ++ [EvPrint ("Is HDR: " ++ str_bool (is_hdr self))])%list)
    as (added & Hcollect & Hran).
  cbn [app] in Hcollect.
  assert (Hfiltered : Permutation (filter ok (as_completed w jobs)) (before ++ after)%list).
  { eapply Permutation_trans; [apply Permutation_filter, Hcompleted | ].
    rewrite Hjobs, filter_app. cbn [filter]. rewrite Hokfailed.
    rewrite <- filter_app, filter_keeps_all; [apply Permutation_refl | exact Hothers]. }
  exists (map (job_output self) (filter ok (as_completed w jobs))), added.
  split; [exact Hcollect | ].
  split; [apply Permutation_map, Hfiltered | ].
  split.
  { rewrite length_map, (Permutation_length Hfiltered), Hjobs.
    rewrite !length_app. simpl. lia. }
  split.
  { intros Hin. apply in_map_iff in Hin. destruct Hin as (j & Hout & Hin).
    apply (Permutation_in _ Hfiltered) in Hin.
    assert (Hj : In (fst j) (map fst resolutions) /\ In (fst failed) (map fst resolutions)).
    { assert (Hkeys : forall k, In k jobs -> In (fst k) (map fst resolutions)).
      { intros k. unfold jobs, transcoding_jobs.
        destruct (is_hdr self); simpl; intuition (subst; simpl; auto). }
      split; apply Hkeys; rewrite Hjobs; apply in_or_app.
      - apply in_app_or in Hin. destruct Hin; [left | right; right]; assumption.
      - right. left. reflexivity. }
    destruct Hj as [Hj Hf].
    unfold job_output in Hout. rewrite !rendition_path_eq in Hout.
    apply append_inv_head in Hout.
    pose proof (rendition_name_inj _ _ _ _ _ _ _ Hj Hf Hout) as E.
    apply Hnotin. replace failed with j; [assumption | ].
    destruct j, failed. exact E. }
  split.
  { intros j Hin. apply Hran. apply (Permutation_in _ (Permutation_sym Hcompleted)).
    assumption. }
  destruct (main_eq w g path tr Hex Hmk) as (self' & tr1' & files' & tr2' & Hi & Hc & Hm).
  rewrite Hinit in Hi. injection Hi as <- <-.
  fold jobs in Hc. rewrite Hcollect in Hc. injection Hc as <- <-.
  exact Hm.
Qed.

Lemma partial_failure_tolerance_witness :
  exists files,
    Permutation files
      ["output/clip_360p_SDR.mp4"; "output/clip_480p_SDR.mp4";
       "output/clip_1080p_SDR.mp4"]
    /\ exists tr2,
         @main sample_floats world_one_failure (Some "clip.mp4") "clip.mp4" []
         = package world_one_failure files tr2.
Proof.
  destruct (partial_failure_tolerance sample_floats world_one_failure
              (Some "clip.mp4") "clip.mp4" []
              (snd (@VideoProcessor_init sample_floats world_one_failure
                      (Some "clip.mp4") "clip.mp4" [EvMakedirs "output" None]))
              (@Build_VideoProcessor sample_floats "clip.mp4" false
                 (Some 10) (Some 30))
              [("360p", false); ("480p", false)] [("1080p", false)] ("720p", false))
    as (files & added & _ & Hperm & _ & _ & _ & Hmain).
  - reflexivity.
  - reflexivity.
  - reflexivity.
  - reflexivity.
  - apply Permutation_rev.
  - do 2 eexists. split; [reflexivity | ]. intros tr. simpl. discriminate.
  - intros j [<- | [<- | [<- | []]]]; do 2 eexists;
      (split; [reflexivity | ]); intros tr; eexists; split; reflexivity.
  - exists files. split; [exact Hperm | ]. eexists. exact Hmain.
Defined.

(** ** The packager stops at the first failed fragmentation *)

Section HardStop.

Lemma clean_not_failed (ev : event) : clean_fragment ev -> failed_fragment ev = false.
Proof.
  intros (input & cp & E & Hz). subst ev. unfold mp4fragment_cmd. simpl.
  rewrite Hz. reflexivity.
Qed.

Lemma clean_not_mp4dash (ev : event) : clean_fragment ev -> is_mp4dash ev = false.
Proof. intros (input & cp & E & _). subst ev. reflexivity. Qed.

Lemma clean_none_failed (evs : trace) :
  Forall clean_fragment evs ->
  forallb (fun ev => negb (failed_fragment ev)) evs = true.
Proof.
  induction 1 as [ | ev evs Hev _ IH]; simpl; [reflexivity | ].
  rewrite (clean_not_failed _ Hev), IH. reflexivity.
Qed.

Lemma clean_none_mp4dash (evs : trace) :
  Forall clean_fragment evs -> existsb is_mp4dash evs = false.
Proof.
  induction 1 as [ | ev evs Hev _ IH]; simpl; [reflexivity | ].
  rewrite (clean_not_mp4dash _ Hev), IH. reflexivity.
Qed.

Lemma report_not_failed (prefix : string) (err : option exn) (ev : event) :
  In ev (error_report prefix err) -> failed_fragment ev = false.
Proof. destruct err; simpl; [intros [<- | []]; reflexivity | intros []]. Qed.

Lemma mp4dash_not_failed (fragmented : list string) (res : raising CompletedProcess) :
  failed_fragment (EvRun (mp4dash_cmd fragmented) res) = false.
Proof. destruct res; reflexivity. Qed.

End HardStop.

(** C4. When a fragmentation call of the packager returns a nonzero exit
    code, that call is its last tool call: what follows is the report of the
    error alone, so no remaining path is fragmented, and the manifest tool is
    invoked neither before nor after; the packager itself returns normally. *)
Theorem fragmentation_hard_stop :
  forall (w : world) (input_paths : list string) (tr : trace)
         (o : outcome unit) (before after : trace)
         (input fragmented : string) (cp : CompletedProcess),
    package w input_paths tr
    = (o, (tr ++ before
              ++ EvRun (mp4fragment_cmd input fragmented) (inr cp) :: after)%list) ->
    returncode cp <> 0 ->
    o = Ret tt
    /\ existsb is_run after = false
    /\ existsb is_mp4dash
         (before ++ EvRun (mp4fragment_cmd input fragmented) (inr cp) :: after)
       = false
    /\ exists e, after = [EvPrint ("Error in Bento4Packager: " ++ exn_str e)].
Proof.
  intros w input_paths tr o before after input fragmented cp Hrun Hnz.
  set (ev := EvRun (mp4fragment_cmd input fragmented) (inr cp)) in *.
  assert (Hev : failed_fragment ev = true).
  { subst ev. unfold mp4fragment_cmd. simpl.
    apply Z.eqb_neq in Hnz. rewrite Hnz. reflexivity. }
  destruct (package_shape w input_paths tr)
    as (evs & Hclean & [(listing & frags & res & E) | (bad & res & e & _ & Herr & E)]);
    rewrite E in Hrun; injection Hrun as Ho Htr;
    apply app_inv_head in Htr;
    pose proof (clean_none_failed _ Hclean) as Hnone.
  - exfalso.
    destruct (split_at_first failed_fragment _ _ _ _ _ _ Htr Hnone Hev)
      as [(_ & Heq & _) | [mid Hmid]].
    + subst ev. discriminate Heq.
    + assert (Hin : In ev (EvRun (mp4dash_cmd frags) res
                             :: error_report "Error in Bento4Packager: "
                                  (tool_error "Error during mp4dash: " res))).
      { rewrite Hmid. apply in_or_app. right. left. reflexivity. }
      destruct Hin as [Heq | Hin].
      * rewrite <- Heq, mp4dash_not_failed in Hev. discriminate Hev.
      * rewrite (report_not_failed _ _ _ Hin) in Hev. discriminate Hev.
  - destruct (split_at_first failed_fragment _ _ _ _ _ _ Htr Hnone Hev)
      as [(Hb & Heq & Ha) | [mid Hmid]].
    + subst before after. split; [auto | ]. split; [reflexivity | ]. split.
      * rewrite existsb_app, (clean_none_mp4dash _ Hclean). reflexivity.
      * exists e. reflexivity.
    + exfalso. destruct mid as [ | m mid]; simpl in Hmid.
      * injection Hmid as Heq _. rewrite <- Heq in Hev. discriminate Hev.
      * injection Hmid as _ Hmid. destruct mid; discriminate Hmid.
Qed.

Lemma fragmentation_hard_stop_witness :
  let paths := ["output/clip_1080p_SDR.mp4"; "output/clip_480p_SDR.mp4";
                "output/clip_360p_SDR.mp4"] in
  snd (package world_bad_fragment paths [])
  = [EvRun (mp4fragment_cmd "output/clip_1080p_SDR.mp4"
                            "output/clip_1080p_SDR-fragmented.mp4")
           (answer 0 EmptyString EmptyString);
     EvRun (mp4fragment_cmd "output/clip_480p_SDR.mp4"
                            "output/clip_480p_SDR-fragmented.mp4")
           (answer 1 EmptyString "ERROR: cannot open input file");
     EvPrint "Error in Bento4Packager: Error during mp4fragment: ERROR: cannot open input file"]
  /\ existsb is_mp4dash (snd (package world_bad_fragment paths [])) = false.
Proof.
  intros paths. split; [reflexivity | ].
  destruct (fragmentation_hard_stop world_bad_fragment paths []
              (Ret tt)
              [EvRun (mp4fragment_cmd "output/clip_1080p_SDR.mp4"
                                      "output/clip_1080p_SDR-fragmented.mp4")
                     (answer 0 EmptyString EmptyString)]
              [EvPrint "Error in Bento4Packager: Error during mp4fragment: ERROR: cannot open input file"]
              "output/clip_480p_SDR.mp4" "output/clip_480p_SDR-fragmented.mp4"
              {| returncode := 1; stdout := Text EmptyString;
                 stderr := Text "ERROR: cannot open input file" |})
    as (_ & _ & Hdash & _).
  - reflexivity.
  - simpl. discriminate.
  - exact Hdash.
Defined.

(** ** The orchestrator's exits *)

(** C7. With an input path that does not exist, [main] prints the error and
    exits with status 1 at once: the print is the only effect, so the output
    directory is not created and no tool is run. *)
Theorem missing_file_exits_first :
  forall (F : PyFloat) (w : world) (argv0 path : string) (tr : trace),
    path_exists w path = false ->
    exists added,
      script w [argv0; path] tr = (SysExit 1, (tr ++ added)%list)
      /\ main w (Some path) path tr = (SysExit 1, (tr ++ added)%list)
      /\ added = [EvPrint ("File not found: " ++ path)]
      /\ existsb is_makedirs added = false
      /\ existsb is_run added = false
      /\ exit_status (fst (script w [argv0; path] tr)) <> 0.
Proof.
  intros F w argv0 path tr H.
  exists [EvPrint ("File not found: " ++ path)].
  assert (E : script w [argv0; path] tr
              = (SysExit 1, (tr ++ [EvPrint ("File not found: " ++ path)])%list)).
  { unfold script. cbn [List.length Nat.eqb negb nth].
    unfold bind. rewrite (main_missing w (Some path) path tr H). reflexivity. }
  rewrite E, (main_missing w (Some path) path tr H).
  repeat split; try reflexivity. simpl. discriminate.
Qed.

Lemma missing_file_exits_first_witness :
  @script sample_floats world_missing ["transcode_and_package.py"; "clip.mp4"] []
  = (SysExit 1, [EvPrint "File not found: clip.mp4"]).
Proof.
  destruct (missing_file_exits_first sample_floats world_missing
              "transcode_and_package.py" "clip.mp4" [])
    as (added & E & _ & Ha & _).
  - reflexivity.
  - rewrite E, Ha. reflexivity.
Defined.



(** * Further properties *)

(** ** Events *)

Section EventFacts.

Lemma run_commands_app (a b : trace) :
  run_commands (a ++ b)%list = (run_commands a ++ run_commands b)%list.
Proof.
  induction a as [ | ev a IH]; [reflexivity | ].
  destruct ev; simpl; rewrite IH; reflexivity.
Qed.

Lemma run_commands_report (prefix : string) (err : option exn) :
  run_commands (error_report prefix err) = [].
Proof. destruct err; reflexivity. Qed.

Lemma no_makedirs_report (prefix : string) (err : option exn) :
  existsb is_makedirs (error_report prefix err) = false.
Proof. destruct err; reflexivity. Qed.

Lemma pick_In {A} (l : list A) (order : list nat) (x : A) :
  In x (pick l order) -> In x l.
Proof.
  induction order as [ | i rest IH]; simpl; [intros [] | ].
  destruct (nth_error l i) as [a | ] eqn:E; [ | exact IH].
  intros [<- | H]; [exact (nth_error_In l i E) | exact (IH H)].
Qed.

Lemma dict_get_missing (d : list (string * string)) (key : string) :
  ~ In key (map fst d) -> dict_get d key = inl (Exn KeyError (repr key)).
Proof.
  induction d as [ | [k v] d IH]; simpl; intros H; [reflexivity | ].
  destruct (String.eqb_spec k key) as [E | _]; [exfalso; auto | ].
  apply IH. intros Hin. apply H. right. exact Hin.
Qed.

End EventFacts.

(** ** The transcode worker *)

(** X1. A resolution label that is not a key of the table is caught as a
    [KeyError]: the worker runs no tool, prints the quoted label as the
    error and returns [None]. *)
Theorem unknown_resolution_is_reported :
  forall (F : PyFloat) (w : world) (self : VideoProcessor)
         (resolution : string) (hdr : bool) (tr : trace),
    ~ In resolution (map fst resolutions) ->
    transcode_and_overlay w self resolution hdr tr
    = (Ret None,
       (tr ++ [EvPrint ("Error in transcode_and_overlay: " ++ repr resolution)])%list).
Proof.
  intros F w self resolution hdr tr H.
  rewrite transcode_and_overlay_eq. unfold job_plan.
  rewrite (dict_get_missing _ _ H). reflexivity.
Qed.

Lemma unknown_resolution_is_reported_witness :
  @transcode_and_overlay sample_floats world_fine
    (@Build_VideoProcessor sample_floats "clip.mp4" false (Some 10) (Some 30))
    "4k" false []
  = (Ret None, [EvPrint "Error in transcode_and_overlay: '4k'"]).
Proof.
  apply (unknown_resolution_is_reported sample_floats world_fine).
  simpl. intros [H | [H | [H | [H | []]]]]; discriminate H.
Defined.

(** X2. For a resolution of the table the worker makes exactly one tool
    call, the transcoder's, and never raises: it returns the rendition path
    when that call comes back with exit code 0, printing nothing; when the
    call raises or exits nonzero it prints the error and returns [None]. *)
Theorem transcode_returns_path_on_exit_zero :
  forall (F : PyFloat) (w : world) (self : VideoProcessor)
         (resolution : string) (hdr : bool) (tr : trace),
    In resolution (map fst resolutions) ->
    exists width height filter,
      let out := rendition_path (video_path self) resolution hdr in
      let cmd := ffmpeg_cmd self width height filter out in
      let res := run_tool w tr cmd in
      (exists cp,
         res = inr cp /\ returncode cp = 0
         /\ transcode_and_overlay w self resolution hdr tr
            = (Ret (Some out), (tr ++ [EvRun cmd res])%list))
      \/ (exists e,
            match res with
            | inl _ => True
            | inr cp => returncode cp <> 0
            end
            /\ transcode_and_overlay w self resolution hdr tr
               = (Ret None,
                  (tr ++ [EvRun cmd res;
                          EvPrint ("Error in transcode_and_overlay: " ++ exn_str e)])%list)).
Proof.
  intros F w self resolution hdr tr Hin.
  destruct (job_plan_table self resolution hdr Hin) as (width & height & filter & Hplan).
  exists width, height, filter. cbv zeta.
  rewrite transcode_and_overlay_eq, Hplan. cbv zeta.
  set (res := run_tool w tr _).
  destruct (tool_error "Error during transcoding: " res) as [e | ] eqn:Eerr.
  - right. exists e. split; [ | reflexivity].
    destruct res as [e' | cp]; [exact I | ].
    simpl in Eerr. intros Hz. rewrite Hz in Eerr. discriminate Eerr.
  - left. destruct (tool_error_none _ _ Eerr) as (cp & Eres & Hz).
    exists cp. repeat split; assumption.
Qed.

Lemma transcode_returns_path_on_exit_zero_witness :
  exists result,
    fst (@transcode_and_overlay sample_floats world_fine
           (@Build_VideoProcessor sample_floats "clip.mp4" false (Some 10) (Some 30))
           "360p" false [])
    = Ret result.
Proof.
  destruct (transcode_returns_path_on_exit_zero sample_floats world_fine
              (@Build_VideoProcessor sample_floats "clip.mp4" false (Some 10) (Some 30))
              "360p" false [])
    as (width & height & filter & [(cp & _ & _ & E) | (e & _ & E)]).
  - simpl. tauto.
  - rewrite E. eexists. reflexivity.
  - rewrite E. eexists. reflexivity.
Defined.

(** ** The prober, further *)

Section ProberFacts.

Context {F : PyFloat}.
Variable w : world.







Lemma get_duration_shape path tr :
  let cmd := duration_probe_cmd path in
  exists d rep,
    get_duration w path tr
    = (Ret d, (tr ++ EvRun cmd (run_tool w tr cmd) :: rep)%list)
    /\ run_commands rep = [] /\ existsb is_makedirs rep = false.
Proof.
  intros cmd. unfold get_duration, try_except, bind. rewrite subprocess_run_eq.
  fold cmd. destruct (run_tool w tr cmd) as [e | cp]; simpl.
  - prog_eval. rewrite <- app_assoc. do 2 eexists. split; [reflexivity | auto].
  - destruct (stdout cp) as [text | e]; simpl.
    + destruct (float_of_str (strip text)); prog_eval.
      * rewrite <- app_assoc. do 2 eexists. split; [reflexivity | auto].
      * exists (Some p), []. auto.
    + prog_eval. rewrite <- app_assoc. do 2 eexists. split; [reflexivity | auto].
Qed.

Lemma get_frame_rate_shape path tr :
  let cmd := frame_rate_probe_cmd path in
  exists fr rep,
    get_frame_rate w path tr
    = (Ret fr, (tr ++ EvRun cmd (run_tool w tr cmd) :: rep)%list)
    /\ run_commands rep = [] /\ existsb is_makedirs rep = false.
Proof.
  intros cmd. unfold get_frame_rate, try_except, bind. rewrite subprocess_run_eq.
  fold cmd. destruct (run_tool w tr cmd) as [e | cp]; simpl.
  - prog_eval. rewrite <- app_assoc. do 2 eexists. split; [reflexivity | auto].
  - destruct (stdout cp) as [text | e]; simpl.
    + destruct (PyInt.unpack2 _) as [e | [num denom]]; simpl; prog_eval.
      * rewrite <- app_assoc. do 2 eexists. split; [reflexivity | auto].
      * destruct (truediv num denom); prog_eval.
        -- rewrite <- app_assoc. do 2 eexists. split; [reflexivity | auto].
        -- exists (Some p), []. auto.
    + prog_eval. rewrite <- app_assoc. do 2 eexists. split; [reflexivity | auto].
Qed.

Lemma VideoProcessor_init_calls g path tr :
  exists self added,
    VideoProcessor_init w g path tr = (Ret self, (tr ++ added)%list)
    /\ run_commands added
       = (match g with
          | Some gpath => [hdr_probe_cmd gpath]
          | None => []
          end ++ [duration_probe_cmd path; frame_rate_probe_cmd path])%list
    /\ existsb is_makedirs added = false.
Proof.
  assert (Hh : exists hdr first,
             check_hdr w g tr = (Ret hdr, (tr ++ first)%list)
             /\ run_commands first
                = match g with Some gpath => [hdr_probe_cmd gpath] | None => [] end
             /\ existsb is_makedirs first = false).
  { destruct g as [gpath | ].
    - rewrite check_hdr_bound. do 2 eexists. split; [reflexivity | ].
      cbn [run_commands existsb is_makedirs].
      rewrite run_commands_report, no_makedirs_report. auto.
    - rewrite check_hdr_unbound. do 2 eexists. split; [reflexivity | auto]. }
  destruct Hh as (hdr & first & Hc & Hr1 & Hm1).
  destruct (get_duration_shape path (tr ++ first)%list) as (d & rep2 & Hd & Hr2 & Hm2).
  destruct (get_frame_rate_shape path
              ((tr ++ first) ++ EvRun (duration_probe_cmd path)
                  (run_tool w (tr ++ first)%list (duration_probe_cmd path)) :: rep2)%list)
    as (fr & rep3 & Hf & Hr3 & Hm3).
  eexists. eexists.
  unfold VideoProcessor_init.
  rewrite (bind_ret_eq _ _ _ _ _ Hc), (bind_ret_eq _ _ _ _ _ Hd),
    (bind_ret_eq _ _ _ _ _ Hf).
  unfold ret. split.
  - repeat rewrite <- app_assoc. reflexivity.
  - split.
    + repeat rewrite run_commands_app. cbn [run_commands].
      rewrite Hr1, Hr2, Hr3. destruct g; reflexivity.
    + repeat rewrite existsb_app. cbn [existsb is_makedirs].
      rewrite Hm1, Hm2, Hm3. reflexivity.
Qed.

End ProberFacts.

(** X3. The probes never look at the exit code of ffprobe.  Whatever the
    exit code and the error stream, when the output stream decodes the HDR
    verdict is read from it and nothing is printed; and when it parses as a
    float the duration is that float, again with nothing printed. *)
Theorem probes_ignore_the_exit_code :
  forall (F : PyFloat) (w : world) (path : string) (tr : trace)
         (status : Z) (text : string) (err : captured),
    let cp := {| returncode := status; stdout := Text text; stderr := err |} in
    (run_tool w tr (hdr_probe_cmd path) = inr cp ->
     check_hdr w (Some path) tr
     = (Ret (existsb line_is_hdr (split nl (strip text))),
        (tr ++ [EvRun (hdr_probe_cmd path) (inr cp)])%list))
    /\ (forall d,
          run_tool w tr (duration_probe_cmd path) = inr cp ->
          float_of_str (strip text) = inr d ->
          get_duration w path tr
          = (Ret (Some d),
             (tr ++ [EvRun (duration_probe_cmd path) (inr cp)])%list)).
Proof.
  intros F w path tr status text err cp. split.
  - intros E. rewrite check_hdr_bound. cbv zeta. rewrite E. reflexivity.
  - intros d E Hd. unfold get_duration, try_except, bind.
    rewrite subprocess_run_eq, E. simpl. rewrite Hd. reflexivity.
Qed.

Lemma probes_ignore_the_exit_code_witness :
  let w := sample_world true "smpte2084" "10" "30/1" "-" "-" None in
  let failing :=
    {| path_exists := path_exists w; makedirs := makedirs w;
       run_tool := fun tr cmd =>
         match run_tool w tr cmd with
         | inr cp => inr {| returncode := 1; stdout := stdout cp;
                            stderr := Text "clip.mp4: Invalid data" |}
         | inl e => inl e
         end;
       completion_order := completion_order w; elapsed := elapsed w |} in
  fst (check_hdr failing (Some "clip.mp4") []) = Ret true
  /\ fst (@get_duration sample_floats failing "clip.mp4" []) = Ret (Some 10).
Proof.
  intros w failing.
  destruct (probes_ignore_the_exit_code sample_floats failing "clip.mp4" [] 1
              ("smpte2084" ++ String nl EmptyString) (Text "clip.mp4: Invalid data"))
    as [Hh _].
  destruct (probes_ignore_the_exit_code sample_floats failing "clip.mp4" [] 1
              ("10" ++ String nl EmptyString) (Text "clip.mp4: Invalid data"))
    as [_ Hd].
  split.
  - rewrite Hh; reflexivity.
  - rewrite (Hd 10); reflexivity.
Defined.

(** X4. The marker [bt2020nc] never decides: a line that holds it holds
    [bt2020] too, so the verdict on any lines is the one the three other
    markers give. *)
Theorem bt2020nc_is_redundant :
  forall lines : list string,
    existsb line_is_hdr lines
    = existsb (fun line => existsb (fun fmt => contains fmt line) hdr_formats_short)
              lines.
Proof.
  intros lines. induction lines as [ | line rest IH]; [reflexivity | ].
  cbn [existsb]. rewrite IH. f_equal.
  unfold line_is_hdr, hdr_formats, hdr_formats_short. cbn [existsb].
  destruct (contains "bt2020nc" line) eqn:E; [ | reflexivity].
  assert (H : contains "bt2020" line = true).
  { apply contains_iff. apply occurs_trans with "bt2020nc".
    - exists EmptyString, "nc". reflexivity.
    - apply contains_iff. exact E. }
  rewrite H. reflexivity.
Qed.




(** ** The stages of a run *)

Section PipelineFacts.

Context {F : PyFloat}.
Variable w : world.

(** The fragmentation loop calls the tool on the inputs in their order and
    stops at the first call that goes wrong. *)
Lemma fragment_all_calls input_paths :
  forall fragmented_paths tr,
  exists k evs o,
    fragment_all w input_paths fragmented_paths tr = (o, (tr ++ evs)%list)
    /\ run_commands evs = map fragment_cmd_of (firstn k input_paths)
    /\ forallb is_run evs = true
    /\ (k <= List.length input_paths)%nat
    /\ match o with
       | Ret all =>
           k = List.length input_paths
           /\ all = (fragmented_paths ++ map fragmented_path_of input_paths)%list
       | Raise e =>
           (1 <= k)%nat
           /\ exists input tr0,
                In input input_paths
                /\ tool_error "Error during mp4fragment: "
                     (run_tool w tr0 (fragment_cmd_of input)) = Some e
       | SysExit _ => False
       end.
Proof.
  induction input_paths as [ | input rest IH]; intros acc tr.
  - exists 0%nat, [], (Ret acc). simpl. unfold ret. rewrite !app_nil_r.
    repeat split; auto.
  - rewrite fragment_all_cons. fold (fragment_cmd_of input).
    set (cmd := fragment_cmd_of input). set (res := run_tool w tr cmd).
    destruct (tool_error "Error during mp4fragment: " res) as [e | ] eqn:Eerr.
    + exists 1%nat, [EvRun cmd res], (Raise e). simpl.
      repeat split; try lia. exists input, tr. auto.
    + destruct (IH (acc ++ [fragmented_path_of input])%list (tr ++ [EvRun cmd res])%list)
        as (k & evs & o & E & Hc & Hr & Hk & Ho).
      exists (S k), (EvRun cmd res :: evs), o. rewrite E, <- app_assoc.
      split; [reflexivity | ]. cbn [run_commands firstn map forallb is_run].
      rewrite Hc, Hr. repeat split; try (simpl; lia).
      destruct o as [all | e | c]; [ | | contradiction].
      * destruct Ho as [-> ->]. split; [reflexivity | ].
        rewrite <- app_assoc. reflexivity.
      * destruct Ho as (Hk1 & bad & tr0 & Hin & Hbad). split; [lia | ].
        exists bad, tr0. split; [right; assumption | assumption].
Qed.

Lemma forallb_run_no_makedirs (evs : trace) :
  forallb is_run evs = true -> existsb is_makedirs evs = false.
Proof.
  induction evs as [ | ev evs IH]; [reflexivity | ].
  destruct ev; simpl; try discriminate. exact IH.
Qed.

(** The packager never raises and creates no directory.  Its tool calls
    are fragmentations of the first [k] inputs, in order; the manifest tool
    is called only after all of them, once and last, on the fragmented paths
    of all the inputs in order, the list having been printed before. *)
Lemma package_calls input_paths tr :
  exists k added,
    package w input_paths tr = (Ret tt, (tr ++ added)%list)
    /\ existsb is_makedirs added = false
    /\ (k <= List.length input_paths)%nat
    /\ (((1 <= k)%nat
         /\ run_commands added = map fragment_cmd_of (firstn k input_paths)
         /\ exists input tr0 e,
              In input input_paths
              /\ tool_error "Error during mp4fragment: "
                   (run_tool w tr0 (fragment_cmd_of input)) = Some e)
        \/ (exists evs res,
              let fragmented := map fragmented_path_of input_paths in
              added
              = (evs ++ EvPrint ("Fragmented files created: " ++ repr_list fragmented)
                     :: EvRun (mp4dash_cmd fragmented) res
                     :: error_report "Error in Bento4Packager: "
                          (tool_error "Error during mp4dash: " res))%list
              /\ run_commands evs = map fragment_cmd_of input_paths
              /\ run_commands added
                 = (map fragment_cmd_of input_paths ++ [mp4dash_cmd fragmented])%list)).
Proof.
  destruct (fragment_all_calls input_paths [] tr)
    as (k & evs & o & E & Hc & Hr & Hk & Ho).
  pose proof (forallb_run_no_makedirs _ Hr) as Hm.
  destruct o as [all | e | c]; [ | | contradiction].
  - destruct Ho as [-> ->]. rewrite firstn_all in Hc. cbn [app] in *.
    set (fragmented := map fragmented_path_of input_paths) in *.
    set (listing := "Fragmented files created: " ++ repr_list fragmented).
    set (res := run_tool w ((tr ++ evs) ++ [EvPrint listing])%list (mp4dash_cmd fragmented)).
    exists (List.length input_paths),
      (evs ++ EvPrint listing :: EvRun (mp4dash_cmd fragmented) res
           :: error_report "Error in Bento4Packager: "
                (tool_error "Error during mp4dash: " res))%list.
    assert (Hpack : package w input_paths tr
                    = (Ret tt,
                       (tr ++ evs ++ EvPrint listing
                           :: EvRun (mp4dash_cmd fragmented) res
                           :: error_report "Error in Bento4Packager: "
                                (tool_error "Error during mp4dash: " res))%list)).
    { unfold package, try_except. rewrite (bind_ret_eq _ _ _ _ _ E).
      unfold bind at 1. unfold print at 1, emit.
      unfold bind. rewrite subprocess_run_eq. fold fragmented listing res.
      destruct res as [e | cp]; simpl.
      - prog_eval. repeat rewrite <- app_assoc. reflexivity.
      - destruct (returncode cp =? 0); simpl.
        + prog_eval. repeat rewrite <- app_assoc. reflexivity.
        + destruct (stderr cp); prog_eval; repeat rewrite <- app_assoc; reflexivity. }
    split; [exact Hpack | ]. split.
    { rewrite existsb_app, Hm. cbn [existsb is_makedirs].
      apply no_makedirs_report. }
    split; [lia | ]. right. exists evs, res. cbv zeta.
    split; [reflexivity | ]. split; [exact Hc | ].
    rewrite run_commands_app. cbn [run_commands].
    rewrite run_commands_report, Hc. reflexivity.
  - destruct Ho as (Hk1 & bad & tr0 & Hin & Hbad).
    exists k, (evs ++ [EvPrint ("Error in Bento4Packager: " ++ exn_str e)])%list.
    split.
    { unfold package, try_except. rewrite (bind_raise_eq _ _ _ _ _ E).
      prog_eval. rewrite <- app_assoc. reflexivity. }
    split; [rewrite existsb_app, Hm; reflexivity | ].
    split; [exact Hk | ]. left. split; [exact Hk1 | ]. split.
    + rewrite run_commands_app. simpl. rewrite app_nil_r. exact Hc.
    + exists bad, tr0, e. auto.
Qed.

(** The batch loop never raises and creates no directory; its tool calls
    are the transcoder calls of the completed jobs, one each and in their
    order; every collected path is the output of one of these jobs. *)
Lemma collect_calls self completed :
  forall files tr,
  exists collected added,
    collect w self completed files tr = (Ret collected, (tr ++ added)%list)
    /\ run_commands added = flat_map (job_commands self) completed
    /\ existsb is_makedirs added = false
    /\ forall path, In path collected ->
         In path files \/ exists j, In j completed /\ path = job_output self j.
Proof.
  induction completed as [ | [resolution hdr] rest IH]; intros files tr.
  - exists files, []. simpl. unfold ret. rewrite app_nil_r. auto.
  - rewrite collect_cons. cbn [flat_map]. unfold job_commands at 1. cbn [fst snd].
    destruct (job_plan self resolution hdr) as [e | [cmd out]] eqn:Eplan.
    + destruct (IH files (tr ++ [EvPrint ("Error in transcode_and_overlay: " ++ exn_str e)])%list)
        as (collected & added & E & Hc & Hm & Hin).
      exists collected, (EvPrint ("Error in transcode_and_overlay: " ++ exn_str e) :: added).
      rewrite E, <- app_assoc. split; [reflexivity | ].
      split; [exact Hc | ]. split; [exact Hm | ].
      intros path Hp. destruct (Hin path Hp) as [H | (j & Hj & Ej)]; [auto | ].
      right. exists j. split; [right; assumption | assumption].
    + cbv zeta. set (res := run_tool w tr cmd).
      set (err := tool_error "Error during transcoding: " res).
      destruct (IH (match err with
                    | None => (files ++ [out])%list
                    | Some _ => files
                    end)
                   (tr ++ EvRun cmd res
                       :: error_report "Error in transcode_and_overlay: " err)%list)
        as (collected & added & E & Hc & Hm & Hin).
      exists collected,
        (EvRun cmd res :: error_report "Error in transcode_and_overlay: " err ++ added)%list.
      rewrite E. split; [repeat rewrite <- app_assoc; reflexivity | ].
      split.
      { cbn [run_commands]. rewrite run_commands_app, run_commands_report, Hc.
        reflexivity. }
      split.
      { cbn [existsb is_makedirs]. rewrite existsb_app, no_makedirs_report, Hm.
        reflexivity. }
      intros path Hp. destruct (Hin path Hp) as [H | (j & Hj & Ej)].
      * destruct err; [auto | ].
        apply in_app_or in H. destruct H as [H | [<- | []]]; [auto | ].
        right. exists (resolution, hdr). split; [left; reflexivity | ].
        exact (job_plan_out _ _ _ _ _ Eplan).
      * right. exists j. split; [right; assumption | assumption].
Qed.

Lemma filter_none {A} (l : list A) : filter (fun _ => false) l = [].
Proof. induction l; simpl; auto. Qed.

Lemma filter_all {A} (l : list A) : filter (fun _ => true) l = l.
Proof. induction l as [ | a l IH]; simpl; [ | rewrite IH]; reflexivity. Qed.

Lemma package_nil tr :
  let listing := EvPrint "Fragmented files created: []" in
  let res := run_tool w (tr ++ [listing])%list (Shell "mp4dash -o output/output_dash ") in
  package w [] tr
  = (Ret tt,
     (tr ++ listing :: EvRun (Shell "mp4dash -o output/output_dash ") res
         :: error_report "Error in Bento4Packager: "
              (tool_error "Error during mp4dash: " res))%list).
Proof.
  intros listing res. unfold package, try_except, bind.
  cbn [fragment_all]. unfold ret at 1. unfold print at 1, emit.
  rewrite subprocess_run_eq.
  change (mp4dash_cmd []) with (Shell "mp4dash -o output/output_dash ").
  change (EvPrint ("Fragmented files created: " ++ repr_list []))
    with listing.
  fold res. destruct res as [e | cp]; simpl.
  - prog_eval. repeat rewrite <- app_assoc. reflexivity.
  - destruct (returncode cp =? 0); simpl.
    + prog_eval. repeat rewrite <- app_assoc. reflexivity.
    + destruct (stderr cp); prog_eval; repeat rewrite <- app_assoc; reflexivity.
Qed.


End PipelineFacts.

(** ** The packager, further *)

(** X7. The packager never raises and calls its tools in a fixed order:
    fragmentations of the inputs in their order, stopping after the first
    [k]; the manifest tool is called only after all inputs were fragmented,
    once and last, on the fragmented paths in input order.  So it makes at
    most one call more than it has inputs. *)
Theorem packager_calls_in_order :
  forall (w : world) (input_paths : list string) (tr : trace),
    exists k added,
      package w input_paths tr = (Ret tt, (tr ++ added)%list)
      /\ (k <= List.length input_paths)%nat
      /\ (run_commands added = map fragment_cmd_of (firstn k input_paths)
          \/ run_commands added
             = (map fragment_cmd_of input_paths
                  ++ [mp4dash_cmd (map fragmented_path_of input_paths)])%list)
      /\ (List.length (run_commands added) <= S (List.length input_paths))%nat.
Proof.
  intros w input_paths tr.
  destruct (package_calls w input_paths tr) as (k & added & E & _ & Hk & Hcalls).
  exists k, added. split; [exact E | ]. split; [exact Hk | ].
  assert (H : run_commands added = map fragment_cmd_of (firstn k input_paths)
              \/ run_commands added
                 = (map fragment_cmd_of input_paths
                      ++ [mp4dash_cmd (map fragmented_path_of input_paths)])%list).
  { destruct Hcalls as [(_ & Hc & _) | (evs & res & _ & _ & Hc)]; auto. }
  split; [exact H | ].
  destruct H as [-> | ->].
  - rewrite length_map, length_firstn. lia.
  - rewrite length_app, length_map. simpl. lia.
Qed.

(** X8. When the fragmentation of every input comes back with exit code 0,
    the packager fragments all inputs in order, prints the list of the
    fragmented paths and then calls the manifest tool once on that list; a
    failure of the manifest tool is printed and not raised. *)
Theorem packager_runs_manifest_tool :
  forall (w : world) (input_paths : list string) (tr : trace),
    (forall input, In input input_paths -> tool_succeeds w (fragment_cmd_of input)) ->
    exists evs res,
      let fragmented := map fragmented_path_of input_paths in
      package w input_paths tr
      = (Ret tt,
         (tr ++ evs
             ++ EvPrint ("Fragmented files created: " ++ repr_list fragmented)
             :: EvRun (mp4dash_cmd fragmented) res
             :: error_report "Error in Bento4Packager: "
                  (tool_error "Error during mp4dash: " res))%list)
      /\ run_commands evs = map fragment_cmd_of input_paths.
Proof.
  intros w input_paths tr Hok.
  destruct (package_calls w input_paths tr)
    as (k & added & E & _ & _ & [(_ & _ & bad & tr0 & e & Hin & Hbad)
                                 | (evs & res & Ha & Hc & _)]).
  - exfalso. rewrite (tool_error_succeeds _ _ (Hok bad Hin tr0)) in Hbad.
    discriminate Hbad.
  - exists evs, res. cbv zeta in *. rewrite E, Ha. auto.
Qed.

Lemma packager_runs_manifest_tool_witness :
  run_commands
    (snd (package world_fine ["output/clip_360p_SDR.mp4"; "output/clip_480p_SDR.mp4"] []))
  = [Shell "mp4fragment --fragment-duration 7000 output/clip_360p_SDR.mp4 output/clip_360p_SDR-fragmented.mp4";
     Shell "mp4fragment --fragment-duration 7000 output/clip_480p_SDR.mp4 output/clip_480p_SDR-fragmented.mp4";
     Shell "mp4dash -o output/output_dash output/clip_360p_SDR-fragmented.mp4 output/clip_480p_SDR-fragmented.mp4"].
Proof.
  destruct (packager_runs_manifest_tool world_fine
              ["output/clip_360p_SDR.mp4"; "output/clip_480p_SDR.mp4"] [])
    as (evs & res & E & Hc).
  - intros input [<- | [<- | []]] tr; eexists; split; reflexivity.
  - rewrite E. cbn [snd app]. rewrite run_commands_app, Hc. cbn [run_commands].
    rewrite run_commands_report. reflexivity.
Defined.

(** X9. A fragmented file is always written directly into [output]: for
    any input path, absolute or with directories, the packager's fragmented
    path is [output/] followed by a name without slash; and so is the
    rendition path of every job of the table. *)
Theorem outputs_stay_in_output_dir :
  forall path : string,
    (exists name,
       fragmented_path_of path = "output/" ++ name
       /\ rfind PosixPath.sep name = -1)
    /\ forall resolution hdr,
         In resolution (map fst resolutions) ->
         exists name,
           rendition_path path resolution hdr = "output/" ++ name
           /\ rfind PosixPath.sep name = -1.
Proof.
  intros path. split.
  - exists (stem path ++ "-fragmented.mp4"). split.
    + unfold fragmented_path_of. fold (stem path). apply join_output.
      apply startswith_app; [ | reflexivity].
      apply startswith_absent, stem_no_sep.
    + apply rfind_absent_app; [apply stem_no_sep | reflexivity].
  - intros resolution hdr Hin.
    exists (rendition_name path resolution hdr ++ ".mp4"). split.
    + apply rendition_path_eq.
    + apply rfind_absent_app; [ | reflexivity].
      apply rendition_name_no_sep, resolution_key_no_sep, Hin.
Qed.

Lemma outputs_stay_in_output_dir_witness :
  exists name,
    rendition_path "../../etc/clip.mov" "1080p" false = "output/" ++ name
    /\ rfind PosixPath.sep name = -1.
Proof.
  destruct (outputs_stay_in_output_dir "../../etc/clip.mov") as [_ H].
  apply (H "1080p" false). simpl. tauto.
Defined.

(** ** The coordinator, further *)

Section BatchFacts.

Lemma NoDup_map_on {A B} (f : A -> B) (l : list A) :
  (forall x y, In x l -> In y l -> f x = f y -> x = y) ->
  NoDup l -> NoDup (map f l).
Proof.
  intros Hinj Hl. induction Hl as [ | a l Ha Hl IH]; simpl; constructor.
  - intros Hin. apply in_map_iff in Hin. destruct Hin as (x & Ex & Hx).
    apply Ha. replace a with x; [assumption | ].
    apply Hinj; [right; assumption | left; reflexivity | assumption].
  - apply IH. intros x y Hx Hy. apply Hinj; right; assumption.
Qed.

Lemma transcoding_jobs_keys (b : bool) (j : job) :
  In j (transcoding_jobs b) -> In (fst j) (map fst resolutions).
Proof.
  unfold transcoding_jobs. destruct b; simpl; intuition (subst; simpl; auto).
Qed.

Lemma transcoding_jobs_NoDup (b : bool) : NoDup (transcoding_jobs b).
Proof.
  destruct b; unfold transcoding_jobs; simpl;
    repeat (constructor; [simpl; intuition discriminate | ]); constructor.
Qed.

Lemma job_commands_table {F : PyFloat} (self : VideoProcessor) (j : job) :
  In (fst j) (map fst resolutions) -> List.length (job_commands self j) = 1%nat.
Proof.
  intros H. unfold job_commands.
  destruct (job_plan_table self (fst j) (snd j) H) as (wd & ht & flt & E).
  rewrite E. reflexivity.
Qed.

End BatchFacts.

(** X10. The batch loop never raises and never retries: whatever the
    transcoder answers, its tool calls are the transcoder calls of the
    completed jobs in completion order, one per job of the table, and every
    path it collects is the output path of one of these jobs. *)
Theorem one_transcoder_call_per_job :
  forall (F : PyFloat) (w : world) (self : VideoProcessor)
         (completed : list job) (tr : trace),
    Forall (fun j => In (fst j) (map fst resolutions)) completed ->
    exists files added,
      collect w self completed [] tr = (Ret files, (tr ++ added)%list)
      /\ run_commands added = flat_map (job_commands self) completed
      /\ List.length (run_commands added) = List.length completed
      /\ forall file, In file files ->
           exists j, In j completed /\ file = job_output self j.
Proof.
  intros F w self completed tr Htable.
  destruct (collect_calls w self completed [] tr) as (files & added & E & Hc & _ & Hin).
  exists files, added. split; [exact E | ]. split; [exact Hc | ]. split.
  - rewrite Hc. clear E Hc Hin. induction Htable as [ | j rest Hj _ IH]; [reflexivity | ].
    cbn [flat_map]. rewrite length_app, (job_commands_table self j Hj), IH. reflexivity.
  - intros file Hf. destruct (Hin file Hf) as [[] | H]. exact H.
Qed.

Lemma one_transcoder_call_per_job_witness :
  exists files added,
    @collect sample_floats world_one_failure
      (@Build_VideoProcessor sample_floats "clip.mp4" false (Some 10) (Some 30))
      [("1080p", false); ("720p", false)] [] []
    = (Ret files, added)
    /\ List.length (run_commands added) = 2%nat.
Proof.
  destruct (one_transcoder_call_per_job sample_floats world_one_failure
              (@Build_VideoProcessor sample_floats "clip.mp4" false (Some 10) (Some 30))
              [("1080p", false); ("720p", false)] [])
    as (files & added & E & _ & Hlen & _).
  - repeat constructor; simpl; tauto.
  - exists files, added. split; [exact E | exact Hlen].
Defined.

(** X11. No two jobs of a run write the same file: the output paths of the
    submitted jobs are pairwise different, for an SDR source and for an HDR
    source, whatever the input path. *)
Theorem batch_outputs_are_distinct :
  forall (F : PyFloat) (self : VideoProcessor),
    NoDup (map (job_output self) (transcoding_jobs (is_hdr self))).
Proof.
  intros F self. apply NoDup_map_on; [ | apply transcoding_jobs_NoDup].
  intros [r1 h1] [r2 h2] H1 H2 E.
  apply transcoding_jobs_keys in H1, H2. cbn [fst] in H1, H2.
  unfold job_output in E. cbn [fst snd] in E.
  rewrite !rendition_path_eq in E. apply append_inv_head in E.
  exact (rendition_name_inj _ _ _ _ _ _ _ H1 H2 E).
Qed.

(** X12. When every transcode of the batch fails, [main] still goes on to
    the packager with no file: nothing is fragmented, the empty list is
    printed and the manifest tool is called with no input file. *)
Theorem all_failed_still_packages :
  forall (F : PyFloat) (w : world) (g : globals) (path : string) (tr tr1 : trace)
         (self : VideoProcessor),
    path_exists w path = true ->
    makedirs w tr "output" = None ->
    VideoProcessor_init w g path (tr ++ [EvMakedirs "output" None])%list
    = (Ret self, tr1) ->
    (forall j, In j (transcoding_jobs (is_hdr self)) -> job_fails w self j) ->
    exists tr2,
      let listing := EvPrint "Fragmented files created: []" in
      let res := run_tool w (tr2 ++ [listing])%list
                   (Shell "mp4dash -o output/output_dash ") in
      main w g path tr
      = (Ret tt,
         (tr2 ++ listing
              :: EvRun (Shell "mp4dash -o output/output_dash ") res
              :: error_report "Error in Bento4Packager: "
                   (tool_error "Error during mp4dash: " res))%list)
      /\ run_commands tr2
         = (run_commands tr1
              ++ flat_map (job_commands self)
                   (as_completed w (transcoding_jobs (is_hdr self))))%list.
Proof.
  intros F w g path tr tr1 self Hex Hmk Hinit Hfail.
  destruct (main_eq w g path tr Hex Hmk) as (self' & tr1' & files & tr2 & Hi & Hc & Hm).
  rewrite Hinit in Hi. injection Hi as <- <-.
  destruct (collect_stable w self (fun _ => false)
              (as_completed w (transcoding_jobs (is_hdr self)))
              (fun j Hj => Hfail j (pick_In _ _ _ Hj)) []
              (tr1 ++ [EvPrint ("Is HDR: " ++ str_bool (is_hdr self))])%list)
    as (added & Hcollect & _).
  rewrite filter_none in Hcollect. cbn [map app] in Hcollect.
  rewrite Hcollect in Hc. injection Hc as <- <-.
  destruct (collect_calls w self (as_completed w (transcoding_jobs (is_hdr self))) []
              (tr1 ++ [EvPrint ("Is HDR: " ++ str_bool (is_hdr self))])%list)
    as (files' & added' & Hcollect' & Hcalls & _).
  rewrite Hcollect in Hcollect'. injection Hcollect' as _ Hadded.
  apply app_inv_head in Hadded. subst added'.
  eexists. cbv zeta. split; [rewrite Hm; apply package_nil | ].
  rewrite !run_commands_app, Hcalls. simpl. rewrite app_nil_r. reflexivity.
Qed.

Lemma all_failed_still_packages_witness :
  exists tr2,
    @main sample_floats world_no_rendition (Some "clip.mp4") "clip.mp4" []
    = (Ret tt,
       (tr2 ++ [EvPrint "Fragmented files created: []";
                EvRun (Shell "mp4dash -o output/output_dash ")
                      (answer 0 EmptyString EmptyString)])%list).
Proof.
  destruct (all_failed_still_packages sample_floats world_no_rendition
              (Some "clip.mp4") "clip.mp4" []
              (snd (@VideoProcessor_init sample_floats world_no_rendition
                      (Some "clip.mp4") "clip.mp4" [EvMakedirs "output" None]))
              (@Build_VideoProcessor sample_floats "clip.mp4" false (Some 10) (Some 30)))
    as (tr2 & E & _).
  - reflexivity.
  - reflexivity.
  - reflexivity.
  - intros j [<- | [<- | [<- | [<- | []]]]]; do 2 eexists;
      (split; [reflexivity | ]); intros tr; simpl; discriminate.
  - exists tr2. exact E.
Defined.

(** X13. When every transcode of the batch succeeds, the packager receives
    the output paths of all the jobs in the order in which the jobs
    completed, not in the order of their submission. *)
Theorem all_succeeded_in_completion_order :
  forall (F : PyFloat) (w : world) (g : globals) (path : string) (tr tr1 : trace)
         (self : VideoProcessor),
    let jobs := transcoding_jobs (is_hdr self) in
    path_exists w path = true ->
    makedirs w tr "output" = None ->
    VideoProcessor_init w g path (tr ++ [EvMakedirs "output" None])%list
    = (Ret self, tr1) ->
    Permutation (seq 0 (List.length jobs)) (completion_order w (List.length jobs)) ->
    (forall j, In j jobs -> job_succeeds w self j) ->
    exists tr2,
      main w g path tr
      = package w (map (job_output self) (as_completed w jobs)) tr2
      /\ Permutation (as_completed w jobs) jobs
      /\ List.length (as_completed w jobs) = (if is_hdr self then 8%nat else 4%nat).
Proof.
  intros F w g path tr tr1 self jobs Hex Hmk Hinit Hperm Hok.
  destruct (main_eq w g path tr Hex Hmk) as (self' & tr1' & files & tr2 & Hi & Hc & Hm).
  rewrite Hinit in Hi. injection Hi as <- <-. fold jobs in Hc.
  destruct (collect_stable w self (fun _ => true) (as_completed w jobs)
              (fun j Hj => Hok j (pick_In _ _ _ Hj)) []
              (tr1 ++ [EvPrint ("Is HDR: " ++ str_bool (is_hdr self))])%list)
    as (added & Hcollect & _).
  rewrite filter_all in Hcollect. cbn [app] in Hcollect.
  rewrite Hcollect in Hc. injection Hc as <- <-.
  exists ((tr1 ++ [EvPrint ("Is HDR: " ++ str_bool (is_hdr self))]) ++ added)%list.
  split; [exact Hm | ].
  pose proof (pick_permutation jobs _ Hperm) as Hp.
  split; [exact Hp | ].
  unfold as_completed. rewrite (Permutation_length Hp). unfold jobs.
  destruct (is_hdr self); reflexivity.
Qed.

Lemma all_succeeded_in_completion_order_witness :
  exists tr2,
    @main sample_floats world_fine (Some "clip.mp4") "clip.mp4" []
    = package world_fine
        ["output/clip_1080p_SDR.mp4"; "output/clip_720p_SDR.mp4";
         "output/clip_480p_SDR.mp4"; "output/clip_360p_SDR.mp4"] tr2.
Proof.
  destruct (all_succeeded_in_completion_order sample_floats world_fine
              (Some "clip.mp4") "clip.mp4" []
              (snd (@VideoProcessor_init sample_floats world_fine
                      (Some "clip.mp4") "clip.mp4" [EvMakedirs "output" None]))
              (@Build_VideoProcessor sample_floats "clip.mp4" false (Some 10) (Some 30)))
    as (tr2 & E & _).
  - reflexivity.
  - reflexivity.
  - reflexivity.
  - apply Permutation_rev.
  - intros j [<- | [<- | [<- | [<- | []]]]]; do 2 eexists;
      (split; [reflexivity | ]); intros tr; eexists; split; reflexivity.
  - exists tr2. exact E.
Defined.

(** ** The orchestrator, further *)





(** X16. The two other early ends of the script.  With an argument count
    other than one, the usage line is printed and the script exits with
    status 1 having checked no path.  When the output directory cannot be
    created, the error leaves [main] uncaught: no tool was run, nothing is
    printed and the elapsed-time line is skipped. *)
Theorem script_stops_early :
  forall (F : PyFloat) (w : world) (tr : trace),
    (forall argv,
       List.length argv <> 2%nat ->
       script w argv tr
       = (SysExit 1,
          (tr ++ [EvPrint "Usage: python script.py <path_to_video_file>"])%list))
    /\ (forall argv0 path e,
          path_exists w path = true ->
          makedirs w tr "output" = Some e ->
          script w [argv0; path] tr
          = (Raise e, (tr ++ [EvMakedirs "output" (Some e)])%list)).
Proof.
  intros F w tr. split.
  - intros argv Hlen. unfold script.
    destruct (Nat.eqb_spec (List.length argv) 2) as [E | _]; [contradiction | ].
    reflexivity.
  - intros argv0 path e Hex Hmk. unfold script.
    cbn [List.length Nat.eqb negb nth].
    rewrite (bind_raise_eq _ _ _ _ _ (main_blocked w (Some path) path tr e Hex Hmk)).
    reflexivity.
Qed.

Lemma script_stops_early_witness :
  @script sample_floats world_fine ["transcode_and_package.py"] []
  = (SysExit 1, [EvPrint "Usage: python script.py <path_to_video_file>"])
  /\ @script sample_floats world_blocked ["transcode_and_package.py"; "clip.mp4"] []
     = (Raise (Exn OSError "[Errno 17] File exists: 'output'"),
        [EvMakedirs "output" (Some (Exn OSError "[Errno 17] File exists: 'output'"))]).
Proof.
  destruct (script_stops_early sample_floats world_fine []) as [Hu _].
  destruct (script_stops_early sample_floats world_blocked []) as [_ Hb].
  split.
  - apply Hu. simpl. discriminate.
  - apply Hb; reflexivity.
Defined.

(** X17. Called from an importing module, where the global [video_path] is
    unbound, [main] treats every source as SDR: no HDR probe is run, the
    processor is not HDR, and the batch is the four SDR jobs, whatever the
    file holds. *)
Theorem imported_main_is_always_sdr :
  forall (F : PyFloat) (w : world) (path : string) (tr : trace),
    path_exists w path = true ->
    makedirs w tr "output" = None ->
    let sdr_jobs := [("360p", false); ("480p", false); ("720p", false); ("1080p", false)] in
    exists self probing batch files,
      VideoProcessor_init w None path (tr ++ [EvMakedirs "output" None])%list
      = (Ret self, ((tr ++ [EvMakedirs "output" None]) ++ probing)%list)
      /\ is_hdr self = false
      /\ run_commands probing = [duration_probe_cmd path; frame_rate_probe_cmd path]
      /\ run_commands batch = flat_map (job_commands self) (as_completed w sdr_jobs)
      /\ main w None path tr
         = package w files
             ((tr ++ [EvMakedirs "output" None]) ++ probing
                ++ EvPrint "Is HDR: False" :: batch)%list.
Proof.
  intros F w path tr Hex Hmk sdr_jobs.
  set (tr0 := (tr ++ [EvMakedirs "output" None])%list).
  destruct (VideoProcessor_init_eq w None path tr0)
    as (hdr & d & fr & t1 & t2 & t3 & Hc & _ & _ & Hinit).
  rewrite check_hdr_unbound in Hc. injection Hc as <- _.
  destruct (VideoProcessor_init_calls w None path tr0) as (self & probing & Hi & Hr & _).
  rewrite Hinit in Hi. injection Hi as <- ->.
  set (self := {| video_path := path; is_hdr := false; duration := d; frame_rate := fr |}) in *.
  destruct (main_eq w None path tr Hex Hmk) as (self' & tr1 & files & tr2 & Hi & Hcol & Hm).
  fold tr0 in Hi. rewrite Hinit in Hi. injection Hi as <- <-.
  destruct (collect_calls w self (as_completed w (transcoding_jobs (is_hdr self))) []
              ((tr0 ++ probing) ++ [EvPrint ("Is HDR: " ++ str_bool (is_hdr self))])%list)
    as (files' & batch & Hcol' & Hb & _).
  rewrite Hcol in Hcol'. injection Hcol' as <- ->.
  exists self, probing, batch, files.
  split; [exact Hinit | ]. split; [reflexivity | ]. split; [exact Hr | ].
  split; [exact Hb | ].
  rewrite Hm. f_equal. subst tr0.
  repeat rewrite <- app_assoc. reflexivity.
Qed.

Lemma imported_main_is_always_sdr_witness :
  exists self probing,
    @VideoProcessor_init sample_floats world_hdr None "clip.mp4" [EvMakedirs "output" None]
    = (Ret self, ([EvMakedirs "output" None] ++ probing)%list)
    /\ is_hdr self = false.
Proof.
  destruct (imported_main_is_always_sdr sample_floats world_hdr "clip.mp4" []
              eq_refl eq_refl)
    as (self & probing & batch & files & E & Hh & _).
  exists self, probing. split; [exact E | exact Hh].
Defined.

(** ** The names of the output files, further *)

Section InputNames.

Lemma only_dots_false_split (name : string) :
  PosixPath.only_dots name = false ->
  exists a c b, name = a ++ String c b /\ Ascii.eqb c PosixPath.extsep = false.
Proof.
  induction name as [ | x r IH]; simpl; [discriminate | ].
  destruct (Ascii.eqb x PosixPath.extsep) eqn:Ex.
  - simpl. intros H. destruct (IH H) as (a & c & b & -> & Hc).
    exists (String x a), c, b. auto.
  - intros _. exists EmptyString, x, r. auto.
Qed.

Lemma basename_after_dir (dir rest : string) :
  rfind PosixPath.sep rest = -1 ->
  PosixPath.basename (dir ++ String PosixPath.sep rest) = rest.
Proof.
  intros H. unfold PosixPath.basename, slice_from.
  rewrite rfind_app.
  assert (E : rfind PosixPath.sep (String PosixPath.sep rest) = 0).
  { cbn [rfind]. rewrite H. reflexivity. }
  rewrite E. cbn [Z.leb Z.compare].
  replace (Z.to_nat (Z.of_nat (String.length dir) + 0 + 1))
    with (String.length (dir ++ String PosixPath.sep EmptyString)).
  - replace (dir ++ String PosixPath.sep rest)
      with ((dir ++ String PosixPath.sep EmptyString) ++ rest)
      by (rewrite append_assoc; reflexivity).
    apply drop_app_length.
  - clear. induction dir as [ | c d IH]; [reflexivity | ].
    simpl String.length. rewrite IH. lia.
Qed.

(** The stem of [dir/name.ext] is [name]. *)
Lemma stem_of_file (dir name ext : string) :
  rfind PosixPath.sep name = -1 ->
  PosixPath.only_dots name = false ->
  rfind PosixPath.sep ext = -1 ->
  rfind PosixPath.extsep ext = -1 ->
  stem (dir ++ String PosixPath.sep (name ++ String PosixPath.extsep ext)) = name.
Proof.
  intros Hname Hdots Hext Hdot.
  destruct (only_dots_false_split name Hdots) as (a & c & b & Ename & Hc).
  unfold stem. rewrite basename_after_dir.
  - rewrite (splitext_root_ext name (String PosixPath.extsep ext) c a b);
      auto.
    + apply rfind_absent_cons. auto.
    + cbn [rfind]. rewrite Hdot. reflexivity.
  - apply rfind_absent_app; [assumption | ].
    apply rfind_absent_cons. auto.
Qed.

End InputNames.

(** X18. The renditions are named after the input's file name alone: for
    an input [dir/name.ext] (the name without slash and not made of dots
    only, the extension without slash or dot) the directory and the
    extension are dropped, and the rendition of a job is written to
    [output/name_{label}_{HDR|SDR}.mp4]. *)
Theorem rendition_named_after_input_file :
  forall (dir name ext resolution : string) (hdr : bool),
    rfind PosixPath.sep name = -1 ->
    PosixPath.only_dots name = false ->
    rfind PosixPath.sep ext = -1 ->
    rfind PosixPath.extsep ext = -1 ->
    rendition_path (dir ++ "/" ++ name ++ "." ++ ext) resolution hdr
    = "output/" ++ name ++ "_" ++ resolution ++ "_" ++ hdr_tag hdr ++ ".mp4".
Proof.
  intros dir name ext resolution hdr Hname Hdots Hext Hdot.
  rewrite rendition_path_eq. unfold rendition_name.
  change (dir ++ "/" ++ name ++ "." ++ ext)
    with (dir ++ String PosixPath.sep (name ++ String PosixPath.extsep ext)).
  rewrite (stem_of_file dir name ext Hname Hdots Hext Hdot).
  repeat rewrite append_assoc. reflexivity.
Qed.

Lemma rendition_named_after_input_file_witness :
  rendition_path "/srv/media.in/clip.v2.mov" "480p" true
  = "output/clip.v2_480p_HDR.mp4".
Proof.
  apply (rendition_named_after_input_file "/srv/media.in" "clip.v2" "mov" "480p" true);
    reflexivity.
Defined.
